(** * Teach-and-repeat: the repeat node (scripts/repeat.py)

    A shallow embedding of the per-frame pipeline of [RepeatNode]:
    [ImageMatching] (windowed localisation and lateral offset),
    [RelativeTFBetweenFrames] (chaining of the stored relative odometry) and
    [Controller] (the pose-regulation law and the end-of-path stop).

    Numbers that are Python floats are real numbers here, frame ids and pixel
    coordinates are integers, and a numpy array that may be empty
    ([size == 0]) is an [option]. *)

From Stdlib Require Import Reals Lra Lia ZArith List Bool.
Import ListNotations.

Local Open Scope Z_scope.

(** ** Python slicing *)

(** [a[start:stop]] on a sequence of length [n]: a negative index counts from
    the end, and both ends are clamped to the sequence. *)
Definition slice_bound (n i : Z) : Z :=
  if i <? 0 then Z.max (i + n) 0 else Z.min i n.

Definition py_slice {A : Type} (l : list A) (start stop : Z) : list A :=
  let n := Z.of_nat (length l) in
  let a := slice_bound n start in
  let b := slice_bound n stop in
  firstn (Z.to_nat (b - a)) (skipn (Z.to_nat a) l).

Local Open Scope R_scope.

(** ** Transforms *)

Module transform_tools.

(** geometry_msgs/Pose restricted to the plane: a position and an orientation
    quaternion. [Pose()] has every field zero. *)
Record Pose : Type := mkPose {
  position_x : R;
  position_y : R;
  orientation_x : R;
  orientation_y : R;
  orientation_z : R;
  orientation_w : R
}.

Definition Pose0 : Pose := mkPose 0 0 0 0 0 0.

Definition set_orientation_w (w : R) (p : Pose) : Pose :=
  mkPose (position_x p) (position_y p)
         (orientation_x p) (orientation_y p) (orientation_z p) w.

(** Modelled from the spec: tf.transformations is not part of the sources;
    [quaternion_from_euler] is the quaternion (x, y, z, w) of the rotation
    given by roll, pitch and yaw. *)
Definition quaternion_from_euler (ai aj ak : R) : R * R * R * R :=
  let ci := cos (ai / 2) in let si := sin (ai / 2) in
  let cj := cos (aj / 2) in let sj := sin (aj / 2) in
  let ck := cos (ak / 2) in let sk := sin (ak / 2) in
  let cc := ci * ck in let cs := ci * sk in
  let sc := si * ck in let ss := si * sk in
  (cj * sc - sj * cs, cj * ss + sj * cc, cj * cs - sj * sc, cj * cc + sj * ss).

(** Modelled from the spec: transform_tools is not part of the sources; an
    SE(2) transform is a homogeneous matrix, of which the rows and columns of
    the plane are kept: the rotation block [m00 m01; m10 m11] and the
    translation column [m03; m13] (the last column of the 4x4 matrix). *)
Record trans : Type := mkTrans {
  m00 : R; m01 : R; m03 : R;
  m10 : R; m11 : R; m13 : R
}.

Definition identity : trans := mkTrans 1 0 0 0 1 0.

(** Modelled from the spec: the homogeneous matrix of a pose, rotation from
    the orientation quaternion and translation from the position. *)
Definition pose_msg_to_trans (p : Pose) : trans :=
  let x := orientation_x p in let y := orientation_y p in
  let z := orientation_z p in let w := orientation_w p in
  mkTrans (1 - 2 * (y * y + z * z)) (2 * (x * y - z * w)) (position_x p)
          (2 * (x * y + z * w)) (1 - 2 * (x * x + z * z)) (position_y p).

(** Modelled from the spec: [compose(a, b)] is the matrix product. *)
Definition append_trans (a b : trans) : trans :=
  mkTrans (m00 a * m00 b + m01 a * m10 b)
          (m00 a * m01 b + m01 a * m11 b)
          (m00 a * m03 b + m01 a * m13 b + m03 a)
          (m10 a * m00 b + m11 a * m10 b)
          (m10 a * m01 b + m11 a * m11 b)
          (m10 a * m03 b + m11 a * m13 b + m13 a).

(** Modelled from the spec: [invert(a)] is the inverse matrix. *)
Definition inverse_trans (a : trans) : trans :=
  let d := m00 a * m11 a - m01 a * m10 a in
  let i00 := m11 a / d in let i01 := - m01 a / d in
  let i10 := - m10 a / d in let i11 := m00 a / d in
  mkTrans i00 i01 (- (i00 * m03 a + i01 * m13 a))
          i10 i11 (- (i10 * m03 a + i11 * m13 a)).

(** Modelled from the spec: [compose(invert(a), b)]. *)
Definition diff_trans (a b : trans) : trans :=
  append_trans (inverse_trans a) b.

(** Modelled from the spec: [rho = sqrt(x^2 + y^2)] of the translation. *)
Definition distance_of_trans (t : trans) : R :=
  sqrt (m03 t * m03 t + m13 t * m13 t).

(** Modelled from the spec: numpy is not part of the sources; the angle of
    the point (x, y), in (-pi, pi]. *)
Definition arctan2 (y x : R) : R :=
  if Rlt_dec 0 x then atan (y / x)
  else if Rlt_dec x 0 then
         (if Rle_dec 0 y then atan (y / x) + PI else atan (y / x) - PI)
  else if Rlt_dec 0 y then PI / 2
  else if Rlt_dec y 0 then - PI / 2
  else 0.

(** Modelled from the spec: the rotation angle of the transform. *)
Definition yaw_from_trans (t : trans) : R := arctan2 (m10 t) (m00 t).

End transform_tools.

Import transform_tools.

(** ** The teach dataset *)

(** One row of [teach_dataset] (columns 1 to 6; column 0, the frame id, is
    overwritten at start-up by the position of the row). *)
Record TeachRow : Type := mkRow {
  relative_odom_x : R;
  relative_odom_y : R;
  relative_odom_yaw : R;
  relative_pose_x : R;
  relative_pose_y : R;
  relative_pose_yaw : R
}.

Definition teach_dataset_t : Type := list TeachRow.

(** [teach_dataset.shape[0]] *)
Definition shape0 (ds : teach_dataset_t) : Z := Z.of_nat (length ds).

(** Column 0 after [teach_dataset[:,0] = np.arange(0, shape[0])]. *)
Definition frame_ids (ds : teach_dataset_t) : list Z :=
  map Z.of_nat (seq 0 (length ds)).

(** ** RelativeTFBetweenFrames *)

(** The transform of one row, lines 311 to 324. *)
Definition frame_tf_of_row (row : TeachRow) : trans :=
  let '(qx, qy, qz, qw) := quaternion_from_euler 0 0 (relative_odom_yaw row) in
  let frame_odom :=
    mkPose (relative_odom_x row) (relative_odom_y row) qx qy qz qw in
  pose_msg_to_trans frame_odom.

(** The body of the loop, lines 326 to 330: [None] is the empty array. *)
Definition build_up (relative_frame_tf : option trans) (row : TeachRow)
  : option trans :=
  let frame_tf := frame_tf_of_row row in
  match relative_frame_tf with
  | None => Some frame_tf
  | Some t => Some (append_trans t frame_tf)
  end.

Definition RelativeTFBetweenFrames (ds : teach_dataset_t)
  (current_frame_id goal_frame_id : Z) : option trans :=
  if Z.eqb current_frame_id goal_frame_id then
    let pose := set_orientation_w 1 Pose0 in
    Some (pose_msg_to_trans pose)
  else
    fold_left build_up
      (py_slice ds (current_frame_id + 1) (goal_frame_id + 1)) None.

(** ** Configuration *)

(** The constants read by [__init__] that the pipeline uses. *)
Record Config : Type := mkConfig {
  X_OFFSET_SCALE_FACTOR : R;
  Y_OFFSET_SCALE_FACTOR : R;
  YAW_OFFSET_SCALE_FACTOR : R;
  FRAME_SEARCH_WINDOW : Z;
  IMAGE_COMPARISON_SIZE : Z * Z;            (* (x, y), that is (width, height) *)
  target_frame_lookahead : Z;               (* the parameter, before [max(., 1)] *)
  RHO_GAIN : R;
  ALPHA_GAIN : R;
  BETA_GAIN : R;
  WHEEL_BASE : R;
  MAX_FORWARD_VELOCITY : R;
  MAX_STEERING_ANGLE : R;
  MIN_STEERING_ANGLE : R
}.

(** [max(rospy.get_param('~target_frame_lookahead', 2), 1)] *)
Definition TARGET_FRAME_LOOKAHEAD (cfg : Config) : Z :=
  Z.max (target_frame_lookahead cfg) 1.

(** ** Controller *)

(** The drive part of the AckermannDriveStamped message the node keeps in
    [self.ackermann_cmd] and publishes. *)
Record AckermannDrive : Type := mkDrive {
  speed : R;
  steering_angle : R;
  steering_angle_velocity : R;
  acceleration : R;
  jerk : R
}.

(** The message as [__init__] leaves it: a fresh message has every field zero. *)
Definition init_cmd (acceleration_param : R) : AckermannDrive :=
  mkDrive 0 0 0 acceleration_param 0.

Definition set_speed (v : R) (c : AckermannDrive) : AckermannDrive :=
  mkDrive v (steering_angle c) (steering_angle_velocity c) (acceleration c) (jerk c).

Definition set_steering_angle (a : R) (c : AckermannDrive) : AckermannDrive :=
  mkDrive (speed c) a (steering_angle_velocity c) (acceleration c) (jerk c).

(** Lines 262 to 274: the look-ahead goal seen from the offset pose. *)
Definition offset_goal (offsets : R * R * R) (goal_pos_relative_trans : trans)
  : trans :=
  let '(off0, off1, off2) := offsets in
  let '(qx, qy, qz, qw) := quaternion_from_euler 0 0 off2 in
  let lateral_pose := mkPose off0 off1 qx qy qz qw in
  let lateral_pose_trans := pose_msg_to_trans lateral_pose in
  diff_trans lateral_pose_trans goal_pos_relative_trans.

(** Line 285. Python's [max(a, 0)] and [min(a, b)] on floats that are numbers
    are the real maximum and minimum. *)
Definition lin_vel_of (cfg : Config) (rho : R) : R :=
  Rmin (Rmax (RHO_GAIN cfg * rho) 0) (MAX_FORWARD_VELOCITY cfg).

(** Line 286. *)
Definition ang_vel_of (cfg : Config) (alpha beta : R) : R :=
  ALPHA_GAIN cfg * alpha + BETA_GAIN cfg * beta.

(** Lines 288 to 291: the steering angle before it is limited. *)
Definition raw_steering (cfg : Config) (lin_vel ang_vel : R) : R :=
  if Req_dec_T lin_vel 0 then 0
  else atan (ang_vel * WHEEL_BASE cfg / lin_vel).

(** Line 292. *)
Definition limit_steering (cfg : Config) (steering : R) : R :=
  Rmin (Rmax steering (MIN_STEERING_ANGLE cfg)) (MAX_STEERING_ANGLE cfg).

(** Lines 285 to 296 on the extracted [rho], [alpha] and [beta]: the speed and
    the steering angle written into the command. *)
Definition control_law (cfg : Config) (rho alpha beta : R) : R * R :=
  let lin_vel := lin_vel_of cfg rho in
  let ang_vel := ang_vel_of cfg alpha beta in
  (lin_vel, limit_steering cfg (raw_steering cfg lin_vel ang_vel)).

(** [Controller]: the new value of [self.ackermann_cmd], which is the message
    published by the call (each branch publishes exactly once). *)
Definition Controller (cfg : Config) (ds : teach_dataset_t)
  (ackermann_cmd : AckermannDrive) (match_teach_id : Z) (offsets : R * R * R)
  : AckermannDrive :=
  match RelativeTFBetweenFrames ds match_teach_id
          (match_teach_id + TARGET_FRAME_LOOKAHEAD cfg) with
  | None => set_speed 0 ackermann_cmd
  | Some goal =>
      let goal_pos_relative_trans := offset_goal offsets goal in
      let rho := distance_of_trans goal_pos_relative_trans in
      let alpha := arctan2 (m13 goal_pos_relative_trans)
                           (m03 goal_pos_relative_trans) in
      let beta := yaw_from_trans goal_pos_relative_trans in
      let '(lin_vel, steering) := control_law cfg rho alpha beta in
      set_steering_angle steering (set_speed lin_vel ackermann_cmd)
  end.

(** The command after a run of calls of [Controller], one per processed
    frame, each with its matched id and offsets. *)
Definition run_controller (cfg : Config) (ds : teach_dataset_t)
  (ackermann_cmd : AckermannDrive) (calls : list (Z * (R * R * R)))
  : AckermannDrive :=
  fold_left (fun cmd call => Controller cfg ds cmd (fst call) (snd call))
            calls ackermann_cmd.

(** The look-ahead goal of a call is unavailable. *)
Definition goal_unavailable (cfg : Config) (ds : teach_dataset_t)
  (call : Z * (R * R * R)) : Prop :=
  RelativeTFBetweenFrames ds (fst call)
    (fst call + TARGET_FRAME_LOOKAHEAD cfg)%Z = None.

(** ** ImageMatching *)

Local Open Scope Z_scope.

(** Lines 234 to 240, on the location they read. [img_proc.shape[1]] is the
    comparison width [IMAGE_COMPARISON_SIZE[0]]; [patch_shape] is
    [img_proc_patch.shape], (rows, columns), the shape of the patch cut by
    [ImageCropCenter] of teach_repeat_common. *)
Definition patch_center (patch_shape : Z * Z) (location : Z * Z) : R * R :=
  ((IZR (fst location) + IZR (snd patch_shape) / 2)%R,
   (IZR (snd location) + IZR (fst patch_shape) / 2)%R).

Definition offsets_of (cfg : Config) (patch_shape : Z * Z) (location : Z * Z)
  : R * R * R :=
  let patch_center_location := patch_center patch_shape location in
  let y_offset :=
    (IZR (fst (IMAGE_COMPARISON_SIZE cfg) / 2) - fst patch_center_location)%R in
  ((X_OFFSET_SCALE_FACTOR cfg * 0)%R,
   (Y_OFFSET_SCALE_FACTOR cfg * y_offset)%R,
   (YAW_OFFSET_SCALE_FACTOR cfg * 0)%R).

Section Matching.

(** Correlation scores with Python's [<] on them. *)
Variable score : Type.
Variable score_lt : score -> score -> bool.

(** What one processed frame brings to the scan: the shape of its centre
    patch, and for each teach frame id the [max_val] and [max_location] that
    [cv.minMaxLoc] finds on the correlation surface of the teach image and
    the patch (lines 214 to 220). *)
Record LiveFrame : Type := mkLiveFrame {
  patch_shape : Z * Z;
  correlate : Z -> score * (Z * Z)
}.

(** The variables the loop of lines 212 to 225 assigns. [max_location] is the
    loop's own local, unbound until the first iteration. *)
Record ScanState : Type := mkScan {
  best_score : option score;
  best_max_location : option (Z * Z);
  max_location : option (Z * Z);
  current_matched_teach_frame_id : Z
}.

(** [best_score == None or best_score < max_val] *)
Definition replaces (best : option score) (max_val : score) : bool :=
  match best with
  | None => true
  | Some b => score_lt b max_val
  end.

Definition scan_step (fr : LiveFrame) (s : ScanState) (teach_frame_id : Z)
  : ScanState :=
  let '(max_val, max_loc) := correlate fr teach_frame_id in
  if replaces (best_score s) max_val then
    mkScan (Some max_val) (Some max_loc) (Some max_loc) teach_frame_id
  else
    mkScan (best_score s) (best_max_location s) (Some max_loc)
           (current_matched_teach_frame_id s).

(** [start_idx] and [end_idx], lines 209 and 210. *)
Definition start_idx (cfg : Config) (cursor : Z) : Z :=
  Z.max (cursor - FRAME_SEARCH_WINDOW cfg) 0.

Definition end_idx (cfg : Config) (ds : teach_dataset_t) (cursor : Z) : Z :=
  Z.min (cursor + FRAME_SEARCH_WINDOW cfg + 1) (shape0 ds).

(** The ids the loop visits: [teach_dataset[start_idx:end_idx, 0]]. *)
Definition candidates (cfg : Config) (ds : teach_dataset_t) (cursor : Z)
  : list Z :=
  py_slice (frame_ids ds) (start_idx cfg cursor) (end_idx cfg ds cursor).

Definition scan (cfg : Config) (ds : teach_dataset_t) (fr : LiveFrame)
  (cursor : Z) : ScanState :=
  fold_left (scan_step fr) (candidates cfg ds cursor)
            (mkScan None None None cursor).

(** What [ImageMatching] leaves and returns: the new cursor (also the returned
    id), [self.patch_center_location] and the returned offsets. *)
Record Matched : Type := mkMatched {
  matched_id : Z;
  patch_center_location : R * R;
  offsets : R * R * R
}.

(** [ImageMatching] from the cursor [cursor]. [None] is the NameError of
    line 234 when the loop has not run ([max_location] is unbound). *)
Definition ImageMatching (cfg : Config) (ds : teach_dataset_t) (fr : LiveFrame)
  (cursor : Z) : option Matched :=
  let s := scan cfg ds fr cursor in
  match max_location s with
  | None => None
  | Some location =>
      Some (mkMatched (current_matched_teach_frame_id s)
                      (patch_center (patch_shape fr) location)
                      (offsets_of cfg (patch_shape fr) location))
  end.

(** The cursor over a run of processed frames, from [cursor]. *)
Fixpoint run_matching (cfg : Config) (ds : teach_dataset_t)
  (frames : list LiveFrame) (cursor : Z) : option Z :=
  match frames with
  | [] => Some cursor
  | fr :: rest =>
      match ImageMatching cfg ds fr cursor with
      | None => None
      | Some m => run_matching cfg ds rest (matched_id m)
      end
  end.

(** Lines 182 to 186 of [Image_Callback]: matching, then the controller. The
    node state is the cursor and the command message. *)
Definition process_frame (cfg : Config) (ds : teach_dataset_t) (fr : LiveFrame)
  (node : Z * AckermannDrive) : option (Z * AckermannDrive) :=
  match ImageMatching cfg ds fr (fst node) with
  | None => None
  | Some m =>
      Some (matched_id m, Controller cfg ds (snd node) (matched_id m) (offsets m))
  end.

End Matching.

Arguments mkLiveFrame {score}.
Arguments patch_shape {score}.
Arguments correlate {score}.
Arguments mkScan {score}.
Arguments best_score {score}.
Arguments best_max_location {score}.
Arguments max_location {score}.
Arguments current_matched_teach_frame_id {score}.
Arguments replaces {score}.
Arguments scan_step {score}.
Arguments scan {score}.
Arguments ImageMatching {score}.
Arguments run_matching {score}.
Arguments process_frame {score}.

(** The cursor at start-up, line 30. *)
Definition initial_cursor : Z := 0.

(** The location the offset ought to be read at: that of the winning
    candidate, which the loop keeps in [best_max_location]. *)
Definition winning_location {score : Type} (s : ScanState score)
  : option (Z * Z) := best_max_location s.

(** What the loop of [RelativeTFBetweenFrames] does to a transform already
    started. *)
Definition chain_step (t : trans) (row : TeachRow) : trans :=
  append_trans t (frame_tf_of_row row).

(** ** The chain of the specification *)

(** The transform of entry [i] of the path, from its [relative_odom]. *)
Definition entry_tf (ds : teach_dataset_t) (i : nat) : trans :=
  frame_tf_of_row (nth i ds (mkRow 0 0 0 0 0 0)).

(** The transforms of the entries [from_id + 1 .. to_id], composed one after
    the other in ascending order. *)
Definition chain_entries (ds : teach_dataset_t) (from_id to_id : nat) : trans :=
  fold_left (fun t i => append_trans t (entry_tf ds i))
            (seq (from_id + 2) (to_id - from_id - 1))
            (entry_tf ds (from_id + 1)).

(** ** Defaults and example paths *)

(** The defaults of [rospy.get_param] in [__init__]. *)
Definition default_config : Config :=
  mkConfig 0%R (2 / 100)%R 0%R 3 (64, 48) 2
           (6 / 10)%R (7 / 10)%R (3 / 10)%R (312 / 1000)%R (5 / 10)%R
           (45 * PI / 180)%R (- 45 * PI / 180)%R.

(** A straight teach path of five frames, one metre apart. *)
Definition straight_path5 : teach_dataset_t :=
  [ mkRow 1 0 0 0 0 0; mkRow 1 0 0 1 0 0; mkRow 1 0 0 2 0 0;
    mkRow 1 0 0 3 0 0; mkRow 1 0 0 4 0 0 ]%R.

(** A teach path that turns left after its first frame. *)
Definition left_turn_path3 : teach_dataset_t :=
  [ mkRow 0 0 0 0 0 0; mkRow 1 1 0 1 1 0; mkRow 1 0 0 2 1 0 ]%R.

(** A teach path recorded standing still. *)
Definition stationary_path3 : teach_dataset_t :=
  [ mkRow 0 0 0 0 0 0; mkRow 0 0 0 0 0 0; mkRow 0 0 0 0 0 0 ]%R.

(** ** The clamp of the specification *)

(** [clamp(x, lo, hi)]: [x] brought back into [[lo, hi]]. *)
Definition clamp (x lo hi : R) : R :=
  if Rlt_dec x lo then lo else if Rlt_dec hi x then hi else x.

(** ** Scores and locations of the candidates *)

(** [max_val] and [max_location] of the candidate [teach_frame_id]. *)
Definition max_val_of {score : Type} (fr : LiveFrame score) (teach_frame_id : Z)
  : score := fst (correlate fr teach_frame_id).

Definition max_loc_of {score : Type} (fr : LiveFrame score) (teach_frame_id : Z)
  : Z * Z := snd (correlate fr teach_frame_id).

(** What makes [<] on the scores an order in which "maximal" and "tie" make
    sense: irreflexive, transitive, and a score below another is below or
    above any third. Numbers have it. *)
Definition score_order {score : Type} (score_lt : score -> score -> bool)
  : Prop :=
  (forall a, score_lt a a = false) /\
  (forall a b c, score_lt a b = true -> score_lt b c = true ->
                 score_lt a c = true) /\
  (forall a b c, score_lt a c = true ->
                 score_lt a b = true \/ score_lt b c = true).

(** A frame whose patch is found centred in teach frame 0 with the best
    score, and off-centre with a lower score in every other teach frame. *)
Definition frame_best_at_0 : LiveFrame Z :=
  mkLiveFrame (28, 38)
    (fun id => if (id =? 0)%Z then (9, (13, 10)) else (5, (2, 10)))%Z.

(** A frame for which the teach frames 1 and 2 tie with the best score. *)
Definition frame_tie_1_2 : LiveFrame Z :=
  mkLiveFrame (28, 38)
    (fun id => if ((id =? 1) || (id =? 2))%Z then (9, (13, 10))
               else (5, (2, 10)))%Z.

(** A frame whose patch is found centred, at (13, 10), in every teach frame,
    with the best score in teach frame [best]. *)
Definition frame_centred (best : Z) : LiveFrame Z :=
  mkLiveFrame (28, 38)
    (fun id => if (id =? best)%Z then (9, (13, 10)) else (5, (13, 10)))%Z.

(** The default configuration with an odd comparison width. *)
Definition odd_width_config : Config :=
  mkConfig 0%R (2 / 100)%R 0%R 3 (65, 49) 2
           (6 / 10)%R (7 / 10)%R (3 / 10)%R (312 / 1000)%R (5 / 10)%R
           (45 * PI / 180)%R (- 45 * PI / 180)%R.

(** ** The node and its callbacks *)

(** The two constants of [__init__] that gate [Image_Callback]. *)
Record NodeParams : Type := mkParams {
  PROCESS_EVERY_NTH_FRAME : Z;
  SAVE_REPEAT_DATA : bool
}.

(** How a call of [Image_Callback] ends. *)
Inductive Outcome : Type :=
| WaitingForOdom      (* line 145: no odometry yet *)
| ZeroDivision        (* line 148: [% 0] raises *)
| Decimated           (* line 150: not the nth frame *)
| DecodeFailed        (* line 173: the image cannot be converted *)
| SaveWarningRaised   (* line 179: the warning reads the unbound [e] *)
| MatchingRaised      (* line 234: [max_location] is unbound *)
| Processed.          (* line 190 is reached *)

Definition is_processed (o : Outcome) : bool :=
  match o with Processed => true | _ => false end.

Definition is_decimated (o : Outcome) : bool :=
  match o with Decimated => true | _ => false end.

(** The columns 1 to 3 of the dataset, the only ones [RelativeTFBetweenFrames]
    slices ([teach_dataset[.., 1:4]]). *)
Definition odom_columns (ds : teach_dataset_t) : list (R * R * R) :=
  map (fun row =>
         (relative_odom_x row, relative_odom_y row, relative_odom_yaw row)) ds.

(** The distance along the rows of a segment, the sum of [relative_odom_x]. *)
Definition travelled (rows : list TeachRow) : R :=
  fold_right Rplus 0%R (map relative_odom_x rows).

(** A row that goes straight ahead: no side step, no turn, not backwards. *)
Definition straight_row (row : TeachRow) : Prop :=
  (relative_odom_y row = 0 /\ relative_odom_yaw row = 0 /\
   0 <= relative_odom_x row)%R.

Module RepeatNode.

(** The attributes of the node that the callbacks read and write, with the
    commands published so far, oldest first. [patch_center_location] does
    not exist before the first match. *)
Record state : Type := mkState {
  update_visualisation : bool;
  current_matched_teach_frame_id : Z;
  odom_topic_recieved : bool;
  frame_counter : Z;
  frame_id : Z;
  previous_odom : option Pose;
  current_odom : option Pose;
  first_frame_odom : option Pose;
  patch_center_location : option (R * R);
  ackermann_cmd : AckermannDrive;
  published : list AckermannDrive
}.

(** The state when [__init__] reaches its loop. *)
Definition init (acceleration_param : R) : state :=
  mkState false 0 false 0 0 None None None None (init_cmd acceleration_param) [].

(** [Odom_Callback] *)
Definition Odom_Callback (self : state) (pose : Pose) : state :=
  mkState (update_visualisation self) (current_matched_teach_frame_id self)
          true (frame_counter self) (frame_id self)
          (previous_odom self) (Some pose) (first_frame_odom self)
          (patch_center_location self) (ackermann_cmd self) (published self).

(** Line 148. *)
Definition count_frame (n : Z) (self : state) : state :=
  mkState (update_visualisation self) (current_matched_teach_frame_id self)
          (odom_topic_recieved self) ((frame_counter self + 1) mod n)
          (frame_id self)
          (previous_odom self) (current_odom self) (first_frame_odom self)
          (patch_center_location self) (ackermann_cmd self) (published self).

(** Lines 153 to 155. *)
Definition set_first_odom (self : state) : state :=
  if frame_id self =? 0 then
    mkState (update_visualisation self) (current_matched_teach_frame_id self)
            (odom_topic_recieved self) (frame_counter self) (frame_id self)
            (current_odom self) (current_odom self) (current_odom self)
            (patch_center_location self) (ackermann_cmd self) (published self)
  else self.

Section Callbacks.

Variable score : Type.
Variable score_lt : score -> score -> bool.

(** An image message, by what the callback gets out of it: whether
    [imgmsg_to_cv2] converts it, what the converted image brings to the
    matching, and what [WriteDataToDatasetFile] returns for it. *)
Record ImageMsg : Type := mkImageMsg {
  decodes : bool;
  live_frame : LiveFrame score;
  save_retval : Z
}.

(** [Image_Callback]: the state it leaves and how it ended. The relative
    transforms of lines 160 and 161 are only logged and saved. *)
Definition Image_Callback (prm : NodeParams) (cfg : Config)
  (ds : teach_dataset_t) (self : state) (data : ImageMsg) : state * Outcome :=
  if negb (odom_topic_recieved self) then (self, WaitingForOdom)
  else if PROCESS_EVERY_NTH_FRAME prm =? 0 then (self, ZeroDivision)
  else
    let self1 := count_frame (PROCESS_EVERY_NTH_FRAME prm) self in
    if negb (frame_counter self1 =? 0) then (self1, Decimated)
    else
      let self2 := set_first_odom self1 in
      if negb (decodes data) then (self2, DecodeFailed)
      else if SAVE_REPEAT_DATA prm && (save_retval data =? -1) then
             (self2, SaveWarningRaised)
      else
        match ImageMatching score_lt cfg ds (live_frame data)
                (current_matched_teach_frame_id self2) with
        | None => (self2, MatchingRaised)
        | Some (mkMatched match_teach_id center lateral_offset) =>
            let cmd :=
              Controller cfg ds (ackermann_cmd self2) match_teach_id
                         lateral_offset in
            (mkState true match_teach_id
                     (odom_topic_recieved self2) (frame_counter self2)
                     (frame_id self2 + 1)
                     (current_odom self2) (current_odom self2)
                     (first_frame_odom self2)
                     (Some center) cmd (published self2 ++ [cmd]),
             Processed)
        end.

(** What the node receives. *)
Inductive Event : Type :=
| OdomMsg (pose : Pose)
| ImageEvent (data : ImageMsg).

Definition handle (prm : NodeParams) (cfg : Config) (ds : teach_dataset_t)
  (self : state) (ev : Event) : state * list Outcome :=
  match ev with
  | OdomMsg pose => (Odom_Callback self pose, [])
  | ImageEvent data =>
      let '(self', o) := Image_Callback prm cfg ds self data in (self', [o])
  end.

(** The callbacks run one at a time, in the order of the messages: the final
    state and the outcomes of the image callbacks, in order. *)
Fixpoint run (prm : NodeParams) (cfg : Config) (ds : teach_dataset_t)
  (self : state) (events : list Event) : state * list Outcome :=
  match events with
  | [] => (self, [])
  | ev :: rest =>
      let '(self1, outs1) := handle prm cfg ds self ev in
      let '(self2, outs2) := run prm cfg ds self1 rest in
      (self2, outs1 ++ outs2)
  end.

End Callbacks.

Arguments mkImageMsg {score}.
Arguments decodes {score}.
Arguments live_frame {score}.
Arguments save_retval {score}.
Arguments OdomMsg {score}.
Arguments ImageEvent {score}.
Arguments Image_Callback {score}.
Arguments handle {score}.
Arguments run {score}.

End RepeatNode.

(** * Properties *)

(** ** Slices *)

Section Slices.

Context {A : Type}.

Lemma firstn_add (n m : nat) (l : list A) :
  firstn (n + m) l = firstn n l ++ firstn m (skipn n l).
Proof.
  revert l; induction n as [|n IH]; intros l; simpl.
  - reflexivity.
  - destruct l as [|x l]; simpl.
    + now rewrite firstn_nil.
    + now rewrite IH.
Qed.

(** A slice between two positions of the sequence. *)
Lemma py_slice_inside (l : list A) (a b : Z) :
  0 <= a <= b -> b <= Z.of_nat (length l) ->
  py_slice l a b = firstn (Z.to_nat (b - a)) (skipn (Z.to_nat a) l).
Proof.
  intros Hab Hb. unfold py_slice, slice_bound.
  destruct (Z.ltb_spec a 0); [lia|].
  destruct (Z.ltb_spec b 0); [lia|].
  rewrite !Z.min_l by lia. reflexivity.
Qed.

(** A stop past the end is clamped to the length. *)
Lemma py_slice_clamp (l : list A) (a b : Z) :
  0 <= a -> Z.of_nat (length l) <= b ->
  py_slice l a b = py_slice l a (Z.of_nat (length l)).
Proof.
  intros Ha Hb. unfold py_slice, slice_bound.
  destruct (Z.ltb_spec a 0); [lia|].
  destruct (Z.ltb_spec b 0); [lia|].
  destruct (Z.ltb_spec (Z.of_nat (length l)) 0); [lia|].
  rewrite (Z.min_r b) by lia. rewrite (Z.min_l (Z.of_nat (length l))) by lia.
  reflexivity.
Qed.

Lemma py_slice_length (l : list A) (a b : Z) :
  0 <= a <= b -> b <= Z.of_nat (length l) ->
  Z.of_nat (length (py_slice l a b)) = b - a.
Proof.
  intros Hab Hb. rewrite py_slice_inside by assumption.
  rewrite firstn_length_le; [lia|]. rewrite length_skipn. lia.
Qed.

(** A start at or past the end leaves nothing. *)
Lemma py_slice_past_end (l : list A) (a b : Z) :
  Z.of_nat (length l) <= a -> 0 <= b -> py_slice l a b = [].
Proof.
  intros Ha Hb. unfold py_slice, slice_bound.
  destruct (Z.ltb_spec a 0); [lia|].
  destruct (Z.ltb_spec b 0); [lia|].
  rewrite (Z.min_r a) by lia.
  replace (Z.to_nat (Z.min b (Z.of_nat (length l)) - Z.of_nat (length l)))
    with 0%nat by lia.
  reflexivity.
Qed.

Lemma py_slice_split (l : list A) (a b c : Z) :
  0 <= a <= b -> b <= c -> c <= Z.of_nat (length l) ->
  py_slice l a c = py_slice l a b ++ py_slice l b c.
Proof.
  intros Hab Hbc Hc. rewrite !py_slice_inside by lia.
  replace (Z.to_nat (c - a)) with (Z.to_nat (b - a) + Z.to_nat (c - b))%nat
    by lia.
  rewrite firstn_add, skipn_skipn.
  replace (Z.to_nat (b - a) + Z.to_nat a)%nat with (Z.to_nat b) by lia.
  reflexivity.
Qed.

Lemma py_slice_nonempty (l : list A) (a b : Z) :
  0 <= a < b -> a < Z.of_nat (length l) -> py_slice l a b <> [].
Proof.
  intros Hab Ha E.
  assert (Hlen : Z.of_nat (length (py_slice l a (Z.min b (Z.of_nat (length l)))))
                 = Z.min b (Z.of_nat (length l)) - a)
    by (apply py_slice_length; lia).
  destruct (Z.le_ge_cases b (Z.of_nat (length l))) as [Hle|Hge].
  - rewrite Z.min_l in Hlen by lia. rewrite E in Hlen. simpl in Hlen. lia.
  - rewrite Z.min_r in Hlen by lia.
    rewrite <- (py_slice_clamp l a b) in Hlen by lia.
    rewrite E in Hlen. simpl in Hlen. lia.
Qed.

End Slices.

(** ** Transforms *)

Section Transforms.

Local Open Scope R_scope.

Lemma append_trans_assoc (a b c : trans) :
  append_trans (append_trans a b) c = append_trans a (append_trans b c).
Proof.
  destruct a, b, c; unfold append_trans; simpl; f_equal; ring.
Qed.

Lemma append_trans_identity_l (t : trans) : append_trans identity t = t.
Proof. destruct t; unfold append_trans, identity; simpl; f_equal; ring. Qed.

Lemma append_trans_identity_r (t : trans) : append_trans t identity = t.
Proof. destruct t; unfold append_trans, identity; simpl; f_equal; ring. Qed.

(** [Pose()] with [orientation.w = 1] is the identity matrix. *)
Lemma unit_pose_identity :
  pose_msg_to_trans (set_orientation_w 1 Pose0) = identity.
Proof.
  unfold pose_msg_to_trans, set_orientation_w, Pose0, identity; simpl.
  f_equal; ring.
Qed.

(** The quaternion of a pure yaw. *)
Lemma quaternion_of_yaw (yaw : R) :
  quaternion_from_euler 0 0 yaw = (0, 0, sin (yaw / 2), cos (yaw / 2)).
Proof.
  unfold quaternion_from_euler.
  replace (0 / 2) with 0 by lra. rewrite cos_0, sin_0.
  repeat f_equal; ring.
Qed.

Lemma frame_tf_of_row_eq (row : TeachRow) :
  let z := sin (relative_odom_yaw row / 2) in
  let w := cos (relative_odom_yaw row / 2) in
  frame_tf_of_row row =
  mkTrans (1 - 2 * (z * z)) (- 2 * (z * w)) (relative_odom_x row)
          (2 * (z * w)) (1 - 2 * (z * z)) (relative_odom_y row).
Proof.
  unfold frame_tf_of_row. rewrite quaternion_of_yaw.
  unfold pose_msg_to_trans; simpl. f_equal; ring.
Qed.

(** A row without rotation is a pure translation. *)
Lemma frame_tf_of_row_straight (x y px py pyaw : R) :
  frame_tf_of_row (mkRow x y 0 px py pyaw) = mkTrans 1 0 x 0 1 y.
Proof.
  rewrite frame_tf_of_row_eq; simpl.
  replace (0 / 2) with 0 by lra. rewrite cos_0, sin_0. f_equal; ring.
Qed.

End Transforms.

(** ** The chain built by RelativeTFBetweenFrames *)

Section Chain.

Lemma fold_build_up_some (rows : list TeachRow) (t : trans) :
  fold_left build_up rows (Some t) = Some (fold_left chain_step rows t).
Proof.
  revert t; induction rows as [|r rows IH]; intros t; simpl.
  - reflexivity.
  - apply IH.
Qed.

Lemma fold_build_up_none (rows : list TeachRow) :
  fold_left build_up rows None =
  match rows with
  | [] => None
  | r :: rest => Some (fold_left chain_step rest (frame_tf_of_row r))
  end.
Proof.
  destruct rows as [|r rest]; simpl.
  - reflexivity.
  - apply fold_build_up_some.
Qed.

Lemma fold_chain_step_append (rows : list TeachRow) (a b : trans) :
  fold_left chain_step rows (append_trans a b) =
  append_trans a (fold_left chain_step rows b).
Proof.
  revert b; induction rows as [|r rows IH]; intros b; simpl.
  - reflexivity.
  - unfold chain_step at 2 3. rewrite append_trans_assoc. apply IH.
Qed.

(** The result is the empty array exactly when the slice has no row. *)
Lemma RelativeTF_none_iff (ds : teach_dataset_t) (k n : Z) :
  k <> n ->
  (RelativeTFBetweenFrames ds k n = None <-> py_slice ds (k + 1) (n + 1) = []).
Proof.
  intros Hkn. unfold RelativeTFBetweenFrames.
  destruct (Z.eqb_spec k n) as [E|_]; [contradiction|].
  rewrite fold_build_up_none.
  destruct (py_slice ds (k + 1) (n + 1)); split; intros H;
    try reflexivity; discriminate.
Qed.

Lemma firstn_skipn_nth (l : list TeachRow) (d : TeachRow) (len a : nat) :
  (a + len <= length l)%nat ->
  firstn len (skipn a l) = map (fun i => nth i l d) (seq a len).
Proof.
  revert a; induction len as [|len IH]; intros a Ha; simpl.
  - reflexivity.
  - assert (Hs : skipn a l = nth a l d :: skipn (S a) l).
    { clear IH. revert a Ha; induction l as [|x l IHl]; intros a Ha.
      - simpl in Ha; lia.
      - destruct a as [|a]; simpl.
        + reflexivity.
        + apply IHl. simpl in Ha. lia. }
    rewrite Hs. cbn [firstn seq map]. f_equal. apply IH. lia.
Qed.

Lemma fold_chain_step_map (ds : teach_dataset_t) (ids : list nat) (t : trans) :
  fold_left chain_step (map (fun i => nth i ds (mkRow 0 0 0 0 0 0)) ids) t =
  fold_left (fun t i => append_trans t (entry_tf ds i)) ids t.
Proof.
  revert t; induction ids as [|i ids IH]; intros t; simpl.
  - reflexivity.
  - apply IH.
Qed.

(** Inside the path the code builds the chain of the entries. *)
Lemma RelativeTF_chain (ds : teach_dataset_t) (k n : Z) :
  0 <= k < n -> n <= shape0 ds - 1 ->
  RelativeTFBetweenFrames ds k n =
  Some (chain_entries ds (Z.to_nat k) (Z.to_nat n)).
Proof.
  intros Hkn Hn. unfold RelativeTFBetweenFrames, shape0 in *.
  destruct (Z.eqb_spec k n) as [E|_]; [lia|].
  rewrite py_slice_inside by lia.
  rewrite (firstn_skipn_nth ds (mkRow 0 0 0 0 0 0)) by lia.
  replace (Z.to_nat (n + 1 - (k + 1))) with (S (Z.to_nat n - Z.to_nat k - 1))
    by lia.
  simpl seq. simpl map. rewrite fold_build_up_none.
  rewrite fold_chain_step_map. unfold chain_entries, entry_tf.
  replace (Z.to_nat (k + 1)) with (Z.to_nat k + 1)%nat by lia.
  replace (S (Z.to_nat k + 1)) with (Z.to_nat k + 2)%nat by lia.
  reflexivity.
Qed.

End Chain.

(** ** Segments of the path *)

(** C6: for every id [k], also one at or past the end of the path (or
    negative), [RelativeTFBetweenFrames k k] returns the identity transform,
    the neutral element of [append_trans]. *)
Theorem segment_same_id_is_identity (ds : teach_dataset_t) (k : Z) :
  RelativeTFBetweenFrames ds k k = Some identity /\
  (forall t, append_trans identity t = t /\ append_trans t identity = t).
Proof.
  split.
  - unfold RelativeTFBetweenFrames. rewrite Z.eqb_refl.
    cbv zeta. now rewrite unit_pose_identity.
  - intros t. split.
    + apply append_trans_identity_l.
    + apply append_trans_identity_r.
Qed.

(** C5: for valid ids [k < m < n <= N - 1] the three segments exist, the
    segment from [k] to [n] is the composition of the segment from [k] to [m]
    with the segment from [m] to [n], and it is the chain of the
    [relative_odom] transforms of the entries [k+1 .. n] in ascending order. *)
Theorem segment_composition (ds : teach_dataset_t) (k m n : Z) :
  0 <= k < m -> m < n -> n <= shape0 ds - 1 ->
  exists a b,
    RelativeTFBetweenFrames ds k m = Some a /\
    RelativeTFBetweenFrames ds m n = Some b /\
    RelativeTFBetweenFrames ds k n = Some (append_trans a b) /\
    append_trans a b = chain_entries ds (Z.to_nat k) (Z.to_nat n).
Proof.
  intros Hkm Hmn Hn.
  assert (Hchain := RelativeTF_chain ds k n ltac:(lia) Hn).
  unfold RelativeTFBetweenFrames in *. unfold shape0 in *.
  destruct (Z.eqb_spec k m) as [E|_]; [lia|].
  destruct (Z.eqb_spec m n) as [E|_]; [lia|].
  destruct (Z.eqb_spec k n) as [E|_]; [lia|].
  rewrite (py_slice_split ds (k + 1) (m + 1) (n + 1)) in * by lia.
  assert (H1 : py_slice ds (k + 1) (m + 1) <> []) by (apply py_slice_nonempty; lia).
  assert (H2 : py_slice ds (m + 1) (n + 1) <> []) by (apply py_slice_nonempty; lia).
  destruct (py_slice ds (k + 1) (m + 1)) as [|r1 rs1]; [contradiction|].
  destruct (py_slice ds (m + 1) (n + 1)) as [|r2 rs2]; [contradiction|].
  simpl app in Hchain. rewrite !fold_build_up_none in *.
  exists (fold_left chain_step rs1 (frame_tf_of_row r1)).
  exists (fold_left chain_step rs2 (frame_tf_of_row r2)).
  assert (E : fold_left chain_step (rs1 ++ r2 :: rs2) (frame_tf_of_row r1) =
              append_trans (fold_left chain_step rs1 (frame_tf_of_row r1))
                           (fold_left chain_step rs2 (frame_tf_of_row r2))).
  { rewrite fold_left_app. simpl. unfold chain_step at 2.
    apply fold_chain_step_append. }
  rewrite E in Hchain.
  repeat split; try reflexivity.
  - simpl app. cbv iota. now rewrite E.
  - now injection Hchain.
Qed.

Lemma segment_composition_witness :
  (0 <= 0 < 1 /\ 1 < 3 /\ 3 <= shape0 straight_path5 - 1) /\
  exists a b,
    RelativeTFBetweenFrames straight_path5 0 1 = Some a /\
    RelativeTFBetweenFrames straight_path5 1 3 = Some b /\
    RelativeTFBetweenFrames straight_path5 0 3 = Some (append_trans a b) /\
    append_trans a b = chain_entries straight_path5 (Z.to_nat 0) (Z.to_nat 3).
Proof.
  assert (H3 : 3 <= shape0 straight_path5 - 1) by (unfold shape0; simpl; lia).
  split; [lia|].
  apply (segment_composition straight_path5 0 1 3); [lia | lia | exact H3].
Defined.

(** C2, as stated, fails: on the straight path of length 5,
    [RelativeTFBetweenFrames 3 5] is not the empty array but the transform of
    the one existing row, the same as the segment from 3 to 4. *)
Lemma segment_past_end_is_partial :
  shape0 straight_path5 = 5 /\
  RelativeTFBetweenFrames straight_path5 3 5 <> None /\
  RelativeTFBetweenFrames straight_path5 3 5 =
  RelativeTFBetweenFrames straight_path5 3 4.
Proof.
  split; [reflexivity|]. split.
  - intros H. apply RelativeTF_none_iff in H; [|lia].
    revert H. apply py_slice_nonempty; simpl; lia.
  - unfold RelativeTFBetweenFrames. simpl Z.eqb. cbv iota.
    rewrite py_slice_clamp by (simpl; lia). reflexivity.
Qed.

(** C2, amended: on a path of length [N >= 1] and for a valid id [k], the
    segment to the last valid id [N - 1] is a transform; a segment to a later
    id [to > k] is the empty array exactly when [k] is the last valid id; and
    from [k < N - 1] a segment to an id at or past the end is the chain over
    the existing rows [k+1 .. N-1], the segment from [k] to [N - 1]. *)
Theorem segment_end_of_path (ds : teach_dataset_t) (k : Z) :
  1 <= shape0 ds -> 0 <= k <= shape0 ds - 1 ->
  RelativeTFBetweenFrames ds k (shape0 ds - 1) <> None /\
  (forall to, k < to ->
     (RelativeTFBetweenFrames ds k to = None <-> k = shape0 ds - 1)) /\
  (forall to, k < shape0 ds - 1 -> shape0 ds - 1 <= to ->
     RelativeTFBetweenFrames ds k to =
     RelativeTFBetweenFrames ds k (shape0 ds - 1)).
Proof.
  intros HN Hk. unfold shape0 in *. split; [|split].
  - destruct (Z.eq_dec k (Z.of_nat (length ds) - 1)) as [E|NE].
    + rewrite <- E. unfold RelativeTFBetweenFrames. rewrite Z.eqb_refl.
      discriminate.
    + intros H. apply RelativeTF_none_iff in H; [|assumption].
      revert H. apply py_slice_nonempty; lia.
  - intros to Hto. split.
    + intros H. apply RelativeTF_none_iff in H; [|lia].
      destruct (Z.eq_dec k (Z.of_nat (length ds) - 1)) as [E|NE]; [assumption|].
      exfalso. revert H. apply py_slice_nonempty; lia.
    + intros E. apply RelativeTF_none_iff; [lia|].
      apply py_slice_past_end; lia.
  - intros to Hlt Hto. unfold RelativeTFBetweenFrames.
    destruct (Z.eqb_spec k to) as [E|_]; [lia|].
    destruct (Z.eqb_spec k (Z.of_nat (length ds) - 1)) as [E|_]; [lia|].
    rewrite py_slice_clamp by lia.
    replace (Z.of_nat (length ds) - 1 + 1) with (Z.of_nat (length ds)) by lia.
    reflexivity.
Qed.

Lemma segment_end_of_path_witness :
  (1 <= shape0 straight_path5 /\ 0 <= 3 <= shape0 straight_path5 - 1) /\
  RelativeTFBetweenFrames straight_path5 3 (shape0 straight_path5 - 1) <> None /\
  (forall to, 3 < to ->
     (RelativeTFBetweenFrames straight_path5 3 to = None <->
      3 = shape0 straight_path5 - 1)) /\
  (forall to, 3 < shape0 straight_path5 - 1 -> shape0 straight_path5 - 1 <= to ->
     RelativeTFBetweenFrames straight_path5 3 to =
     RelativeTFBetweenFrames straight_path5 3 (shape0 straight_path5 - 1)).
Proof.
  assert (H : 1 <= shape0 straight_path5 /\ 0 <= 3 <= shape0 straight_path5 - 1)
    by (unfold shape0; simpl; lia).
  split; [exact H|].
  apply (segment_end_of_path straight_path5 3); apply H.
Defined.

(** ** The controller *)

Section ControllerFacts.

Local Open Scope R_scope.

Variable cfg : Config.
Variable ds : teach_dataset_t.

(** Python's nested [min(max(., lo), hi)] is the clamp when [lo <= hi]. *)
Lemma min_max_is_clamp (x lo hi : R) :
  lo <= hi -> Rmin (Rmax x lo) hi = clamp x lo hi.
Proof.
  intros Hle. unfold clamp, Rmin, Rmax.
  destruct (Rlt_dec x lo), (Rlt_dec hi x), (Rle_dec x lo);
    try destruct (Rle_dec lo hi); try destruct (Rle_dec x hi); lra.
Qed.

Lemma min_max_bounds (x lo hi : R) :
  lo <= hi -> lo <= Rmin (Rmax x lo) hi <= hi.
Proof.
  intros Hle. split.
  - apply Rmin_glb; [apply Rmax_r | exact Hle].
  - apply Rmin_r.
Qed.

(** The end-of-path branch: only the speed is written. *)
Lemma Controller_stop (cmd : AckermannDrive) (id : Z) (offs : R * R * R) :
  RelativeTFBetweenFrames ds id (id + TARGET_FRAME_LOOKAHEAD cfg)%Z = None ->
  Controller cfg ds cmd id offs = set_speed 0 cmd.
Proof. intros H. unfold Controller. now rewrite H. Qed.

(** The tracking branch: speed and steering angle are written. *)
Lemma Controller_tracking (cmd : AckermannDrive) (id : Z) (offs : R * R * R)
  (goal : trans) :
  RelativeTFBetweenFrames ds id (id + TARGET_FRAME_LOOKAHEAD cfg)%Z = Some goal ->
  let g := offset_goal offs goal in
  let lin_vel := lin_vel_of cfg (distance_of_trans g) in
  let ang_vel :=
    ang_vel_of cfg (arctan2 (m13 g) (m03 g)) (yaw_from_trans g) in
  Controller cfg ds cmd id offs =
  mkDrive lin_vel (limit_steering cfg (raw_steering cfg lin_vel ang_vel))
          (steering_angle_velocity cmd) (acceleration cmd) (jerk cmd).
Proof. intros H. unfold Controller. rewrite H. reflexivity. Qed.

(** With a zero offset the goal is left as it is. *)
Lemma offset_goal_zero (g : trans) : offset_goal (0, 0, 0) g = g.
Proof.
  unfold offset_goal. rewrite quaternion_of_yaw.
  replace (0 / 2) with 0 by lra. rewrite sin_0, cos_0.
  destruct g; unfold diff_trans, inverse_trans, append_trans, pose_msg_to_trans;
    simpl; f_equal; field.
Qed.

Lemma arctan2_0_0 : arctan2 0 0 = 0.
Proof.
  unfold arctan2. repeat destruct (Rlt_dec _ _); try lra.
Qed.

Lemma arctan2_pos (y x : R) : 0 < x -> arctan2 y x = atan (y / x).
Proof. intros H. unfold arctan2. destruct (Rlt_dec 0 x); [reflexivity|lra]. Qed.

End ControllerFacts.

(** ** The example paths under the default configuration *)

Section Examples.

Local Open Scope R_scope.

Lemma default_limits :
  0 <= MAX_FORWARD_VELOCITY default_config /\
  MIN_STEERING_ANGLE default_config < 0 < MAX_STEERING_ANGLE default_config.
Proof. simpl. assert (H := PI_RGT_0). lra. Qed.

Lemma straight_path5_end :
  RelativeTFBetweenFrames straight_path5 4
    (4 + TARGET_FRAME_LOOKAHEAD default_config)%Z = None.
Proof.
  apply RelativeTF_none_iff; [discriminate|].
  apply py_slice_past_end; simpl; lia.
Qed.

Lemma left_turn_path3_goal :
  RelativeTFBetweenFrames left_turn_path3 0
    (0 + TARGET_FRAME_LOOKAHEAD default_config)%Z = Some (mkTrans 1 0 2 0 1 1).
Proof.
  unfold RelativeTFBetweenFrames. simpl Z.eqb. cbv iota.
  rewrite py_slice_inside by (simpl; lia).
  simpl. unfold chain_step. rewrite !frame_tf_of_row_straight.
  unfold append_trans; simpl. do 2 f_equal; ring.
Qed.

Lemma left_turn_path3_end :
  RelativeTFBetweenFrames left_turn_path3 2
    (2 + TARGET_FRAME_LOOKAHEAD default_config)%Z = None.
Proof.
  apply RelativeTF_none_iff; [discriminate|].
  apply py_slice_past_end; simpl; lia.
Qed.

Lemma stationary_path3_goal :
  RelativeTFBetweenFrames stationary_path3 0
    (0 + TARGET_FRAME_LOOKAHEAD default_config)%Z = Some identity.
Proof.
  unfold RelativeTFBetweenFrames. simpl Z.eqb. cbv iota.
  rewrite py_slice_inside by (simpl; lia).
  simpl. unfold chain_step. rewrite !frame_tf_of_row_straight.
  unfold append_trans, identity; simpl. do 2 f_equal; ring.
Qed.

Lemma limit_steering_pos (c : Config) (a : R) :
  0 < a -> 0 < MAX_STEERING_ANGLE c -> 0 < limit_steering c a.
Proof.
  intros Ha Hmax. unfold limit_steering.
  apply Rmin_glb_lt; [|exact Hmax].
  apply Rlt_le_trans with a; [exact Ha | apply Rmax_l].
Qed.

Lemma atan_pos (x : R) : 0 < x -> 0 < atan x.
Proof. intros H. rewrite <- atan_0. now apply atan_increasing. Qed.

(** The steering angle of the first command on the left-turn path. *)
Lemma left_turn_path3_steers :
  0 < steering_angle
        (Controller default_config left_turn_path3 (init_cmd (5 / 10)) 0 (0, 0, 0)).
Proof.
  rewrite (Controller_tracking _ _ _ _ _ _ left_turn_path3_goal).
  rewrite offset_goal_zero. cbn [steering_angle].
  apply limit_steering_pos; [|apply default_limits].
  assert (Hrho : 1 <= distance_of_trans (mkTrans 1 0 2 0 1 1)).
  { unfold distance_of_trans; simpl. rewrite <- sqrt_1 at 1.
    apply sqrt_le_1_alt. lra. }
  assert (Hv : lin_vel_of default_config
                 (distance_of_trans (mkTrans 1 0 2 0 1 1)) = 5 / 10).
  { unfold lin_vel_of; simpl. rewrite Rmax_left by lra.
    apply Rmin_right. lra. }
  rewrite Hv. unfold raw_steering.
  destruct (Req_dec_T (5 / 10) 0) as [E|_]; [lra|].
  apply atan_pos. unfold ang_vel_of, yaw_from_trans; simpl.
  rewrite !arctan2_pos by lra.
  replace (0 / 1) with 0 by field. rewrite atan_0.
  assert (Ha : 0 < atan (1 / 2)) by (apply atan_pos; lra).
  apply Rdiv_lt_0_compat; [|lra]. nra.
Qed.

Lemma identity_at_goal :
  distance_of_trans identity = 0 /\
  arctan2 (m13 identity) (m03 identity) = 0 /\
  yaw_from_trans identity = 0.
Proof.
  unfold distance_of_trans, yaw_from_trans; simpl. repeat split.
  - replace (0 * 0 + 0 * 0) with 0 by ring. apply sqrt_0.
  - apply arctan2_0_0.
  - rewrite arctan2_pos by lra. replace (0 / 1) with 0 by field. apply atan_0.
Qed.

End Examples.

(** ** End of path *)

Local Open Scope R_scope.

(** A patch found centred gives the zero offset vector. *)
Lemma centred_offsets :
  offsets_of default_config (28, 38)%Z (13, 10)%Z = (0, 0, 0).
Proof.
  unfold offsets_of, patch_center; cbn. repeat f_equal; lra.
Qed.

(** C1, as stated, fails: on the left-turn path the first frame is matched
    to teach frame 0 with a zero offset and is tracked, which leaves a
    positive steering angle in the command; the next frame is matched to the
    last teach frame 2, the look-ahead segment is empty, and the command
    published then has speed 0 but keeps that steering angle. *)
Lemma stop_command_keeps_steering :
  exists cmd1 cmd2,
    process_frame Z.ltb default_config left_turn_path3 (frame_centred 0)
      (initial_cursor, init_cmd (5 / 10)) = Some (0%Z, cmd1) /\
    process_frame Z.ltb default_config left_turn_path3 (frame_centred 2)
      (0%Z, cmd1) = Some (2%Z, cmd2) /\
    RelativeTFBetweenFrames left_turn_path3 2
      (2 + TARGET_FRAME_LOOKAHEAD default_config)%Z = None /\
    speed cmd2 = 0 /\
    steering_angle cmd2 <> 0.
Proof.
  set (offs := offsets_of default_config (28, 38)%Z (13, 10)%Z).
  set (cmd1 := Controller default_config left_turn_path3 (init_cmd (5 / 10))
                 0 offs).
  exists cmd1, (Controller default_config left_turn_path3 cmd1 2 offs).
  split; [reflexivity|]. split; [reflexivity|].
  split; [exact left_turn_path3_end|].
  subst cmd1 offs. rewrite centred_offsets.
  rewrite (Controller_stop _ _ _ 2%Z _ left_turn_path3_end).
  split; [reflexivity|]. cbn [steering_angle set_speed].
  assert (H := left_turn_path3_steers). lra.
Qed.

(** C1, amended: whenever the look-ahead segment is unavailable, the
    controller publishes the command with speed 0 and every other field,
    the steering angle among them, as the previous command left it (so
    steering 0 when no tracking command came before); and the state is
    terminal: every later frame whose goal is unavailable publishes that same
    command again. *)
Theorem controller_end_of_path (cfg : Config) (ds : teach_dataset_t)
  (cmd : AckermannDrive) (id : Z) (offs : R * R * R) :
  RelativeTFBetweenFrames ds id (id + TARGET_FRAME_LOOKAHEAD cfg)%Z = None ->
  let stop := Controller cfg ds cmd id offs in
  speed stop = 0 /\
  steering_angle stop = steering_angle cmd /\
  stop = set_speed 0 cmd /\
  (forall a, cmd = init_cmd a -> steering_angle stop = 0) /\
  (forall id' offs',
     RelativeTFBetweenFrames ds id' (id' + TARGET_FRAME_LOOKAHEAD cfg)%Z = None ->
     Controller cfg ds stop id' offs' = stop) /\
  (forall calls, Forall (goal_unavailable cfg ds) calls ->
     run_controller cfg ds stop calls = stop).
Proof.
  intros H stop. subst stop. rewrite (Controller_stop _ _ _ _ _ H).
  assert (Hagain : forall id' offs',
            RelativeTFBetweenFrames ds id'
              (id' + TARGET_FRAME_LOOKAHEAD cfg)%Z = None ->
            Controller cfg ds (set_speed 0 cmd) id' offs' = set_speed 0 cmd).
  { intros id' offs' H'. now rewrite (Controller_stop _ _ _ _ _ H'). }
  repeat apply conj; try reflexivity.
  - intros a ->. reflexivity.
  - exact Hagain.
  - intros calls Hall. unfold run_controller.
    induction Hall as [|call calls Hcall _ IH]; simpl.
    + reflexivity.
    + rewrite (Hagain _ _ Hcall). exact IH.
Qed.

Lemma controller_end_of_path_witness :
  RelativeTFBetweenFrames straight_path5 4
    (4 + TARGET_FRAME_LOOKAHEAD default_config)%Z = None /\
  let stop :=
    Controller default_config straight_path5 (init_cmd (5 / 10)) 4 (0, 0, 0) in
  speed stop = 0 /\
  steering_angle stop = steering_angle (init_cmd (5 / 10)) /\
  stop = set_speed 0 (init_cmd (5 / 10)) /\
  (forall a, init_cmd (5 / 10) = init_cmd a -> steering_angle stop = 0) /\
  (forall id' offs',
     RelativeTFBetweenFrames straight_path5 id'
       (id' + TARGET_FRAME_LOOKAHEAD default_config)%Z = None ->
     Controller default_config straight_path5 stop id' offs' = stop) /\
  (forall calls, Forall (goal_unavailable default_config straight_path5) calls ->
     run_controller default_config straight_path5 stop calls = stop).
Proof.
  split; [exact straight_path5_end|].
  apply (controller_end_of_path default_config straight_path5
           (init_cmd (5 / 10)) 4 (0, 0, 0)).
  exact straight_path5_end.
Defined.

(** ** The control law *)

(** C8: in the tracking state, with limits that form intervals
    ([0 <= max_speed], [min_steering <= max_steering]), the published speed
    is [clamp(rho_gain * rho, 0, max_speed)], lies in [[0, max_speed]] and is
    [max_speed] as soon as [rho_gain * rho >= max_speed]; the published
    steering angle is [atan(omega * wheelbase / speed)] when the speed is not
    0 and 0 otherwise, clamped to [[min_steering, max_steering]], so it lies
    in that interval whatever [omega] is. *)
Theorem controller_tracking_saturation (cfg : Config) (ds : teach_dataset_t)
  (cmd : AckermannDrive) (id : Z) (offs : R * R * R) (goal : trans) :
  0 <= MAX_FORWARD_VELOCITY cfg ->
  MIN_STEERING_ANGLE cfg <= MAX_STEERING_ANGLE cfg ->
  RelativeTFBetweenFrames ds id (id + TARGET_FRAME_LOOKAHEAD cfg)%Z = Some goal ->
  let g := offset_goal offs goal in
  let rho := distance_of_trans g in
  let omega := ALPHA_GAIN cfg * arctan2 (m13 g) (m03 g)
               + BETA_GAIN cfg * yaw_from_trans g in
  let out := Controller cfg ds cmd id offs in
  speed out = clamp (RHO_GAIN cfg * rho) 0 (MAX_FORWARD_VELOCITY cfg) /\
  0 <= speed out <= MAX_FORWARD_VELOCITY cfg /\
  (MAX_FORWARD_VELOCITY cfg <= RHO_GAIN cfg * rho ->
   speed out = MAX_FORWARD_VELOCITY cfg) /\
  (speed out <> 0 ->
   steering_angle out =
   clamp (atan (omega * WHEEL_BASE cfg / speed out))
         (MIN_STEERING_ANGLE cfg) (MAX_STEERING_ANGLE cfg)) /\
  (speed out = 0 ->
   steering_angle out =
   clamp 0 (MIN_STEERING_ANGLE cfg) (MAX_STEERING_ANGLE cfg)) /\
  MIN_STEERING_ANGLE cfg <= steering_angle out <= MAX_STEERING_ANGLE cfg.
Proof.
  intros Hv Hs Hgoal g rho omega out. subst out.
  rewrite (Controller_tracking _ _ _ _ _ _ Hgoal). fold g. fold rho.
  cbn [speed steering_angle].
  unfold lin_vel_of, limit_steering, raw_steering, ang_vel_of. fold omega.
  repeat split.
  - now apply min_max_is_clamp.
  - now apply min_max_bounds.
  - apply Rmin_r.
  - intros Hsat. apply Rmin_right.
    apply Rle_trans with (RHO_GAIN cfg * rho); [exact Hsat | apply Rmax_l].
  - intros Hne. destruct (Req_dec_T _ 0) as [E|_]; [contradiction|].
    now apply min_max_is_clamp.
  - intros Hz. destruct (Req_dec_T _ 0) as [_|NE]; [|contradiction].
    now apply min_max_is_clamp.
  - now apply min_max_bounds.
  - apply Rmin_r.
Qed.

Lemma controller_tracking_saturation_witness :
  (0 <= MAX_FORWARD_VELOCITY default_config /\
   MIN_STEERING_ANGLE default_config <= MAX_STEERING_ANGLE default_config /\
   RelativeTFBetweenFrames left_turn_path3 0
     (0 + TARGET_FRAME_LOOKAHEAD default_config)%Z = Some (mkTrans 1 0 2 0 1 1)) /\
  let g := offset_goal (0, 0, 0) (mkTrans 1 0 2 0 1 1) in
  let rho := distance_of_trans g in
  let omega := ALPHA_GAIN default_config * arctan2 (m13 g) (m03 g)
               + BETA_GAIN default_config * yaw_from_trans g in
  let out :=
    Controller default_config left_turn_path3 (init_cmd (5 / 10)) 0 (0, 0, 0) in
  speed out = clamp (RHO_GAIN default_config * rho) 0
                    (MAX_FORWARD_VELOCITY default_config) /\
  0 <= speed out <= MAX_FORWARD_VELOCITY default_config /\
  (MAX_FORWARD_VELOCITY default_config <= RHO_GAIN default_config * rho ->
   speed out = MAX_FORWARD_VELOCITY default_config) /\
  (speed out <> 0 ->
   steering_angle out =
   clamp (atan (omega * WHEEL_BASE default_config / speed out))
         (MIN_STEERING_ANGLE default_config)
         (MAX_STEERING_ANGLE default_config)) /\
  (speed out = 0 ->
   steering_angle out =
   clamp 0 (MIN_STEERING_ANGLE default_config)
         (MAX_STEERING_ANGLE default_config)) /\
  MIN_STEERING_ANGLE default_config <= steering_angle out
    <= MAX_STEERING_ANGLE default_config.
Proof.
  assert (H := default_limits).
  split.
  - split; [apply H|]. split; [lra | exact left_turn_path3_goal].
  - apply (controller_tracking_saturation default_config left_turn_path3
             (init_cmd (5 / 10)) 0 (0, 0, 0) (mkTrans 1 0 2 0 1 1));
      [apply H | lra | exact left_turn_path3_goal].
Defined.

(** C9: with limits that admit the zero command ([0 <= max_speed],
    [min_steering <= 0 <= max_steering]), a zero offset vector and extracted
    quantities [rho = 0], [alpha = 0], [beta = 0], the controller publishes
    speed 0 and steering angle 0. *)
Theorem controller_at_goal (cfg : Config) (ds : teach_dataset_t)
  (cmd : AckermannDrive) (id : Z) (offs : R * R * R) (goal : trans) :
  0 <= MAX_FORWARD_VELOCITY cfg ->
  MIN_STEERING_ANGLE cfg <= 0 <= MAX_STEERING_ANGLE cfg ->
  RelativeTFBetweenFrames ds id (id + TARGET_FRAME_LOOKAHEAD cfg)%Z = Some goal ->
  offs = (0, 0, 0) ->
  let g := offset_goal offs goal in
  distance_of_trans g = 0 ->
  arctan2 (m13 g) (m03 g) = 0 ->
  yaw_from_trans g = 0 ->
  speed (Controller cfg ds cmd id offs) = 0 /\
  steering_angle (Controller cfg ds cmd id offs) = 0.
Proof.
  intros Hv Hs Hgoal Hoffs g Hrho Halpha Hbeta.
  rewrite (Controller_tracking _ _ _ _ _ _ Hgoal). fold g.
  rewrite Hrho, Halpha, Hbeta. cbn [speed steering_angle].
  assert (Hlin : lin_vel_of cfg 0 = 0).
  { unfold lin_vel_of. rewrite Rmult_0_r.
    rewrite Rmax_left by lra. apply Rmin_left. exact Hv. }
  rewrite Hlin. split; [reflexivity|].
  unfold raw_steering. destruct (Req_dec_T 0 0) as [_|NE]; [|contradiction].
  unfold limit_steering. rewrite Rmax_left by lra. apply Rmin_left. lra.
Qed.

Lemma controller_at_goal_witness :
  (0 <= MAX_FORWARD_VELOCITY default_config /\
   MIN_STEERING_ANGLE default_config <= 0 <= MAX_STEERING_ANGLE default_config /\
   RelativeTFBetweenFrames stationary_path3 0
     (0 + TARGET_FRAME_LOOKAHEAD default_config)%Z = Some identity /\
   distance_of_trans (offset_goal (0, 0, 0) identity) = 0 /\
   arctan2 (m13 (offset_goal (0, 0, 0) identity))
           (m03 (offset_goal (0, 0, 0) identity)) = 0 /\
   yaw_from_trans (offset_goal (0, 0, 0) identity) = 0) /\
  speed (Controller default_config stationary_path3
           (init_cmd (5 / 10)) 0 (0, 0, 0)) = 0 /\
  steering_angle (Controller default_config stationary_path3
           (init_cmd (5 / 10)) 0 (0, 0, 0)) = 0.
Proof.
  assert (H := default_limits).
  assert (G := identity_at_goal). rewrite <- (offset_goal_zero identity) in G.
  split.
  - split; [apply H|]. split; [lra|]. split; [exact stationary_path3_goal|].
    exact G.
  - apply (controller_at_goal default_config stationary_path3
             (init_cmd (5 / 10)) 0 (0, 0, 0) identity);
      [apply H | lra | exact stationary_path3_goal | reflexivity
      | apply G | apply G | apply G].
Defined.

(** ** The candidate window *)

Local Open Scope Z_scope.

Lemma firstn_seq_le (n a m : nat) :
  (n <= m)%nat -> firstn n (seq a m) = seq a n.
Proof.
  revert a m; induction n as [|n IH]; intros a m Hn; simpl.
  - reflexivity.
  - destruct m as [|m]; [lia|]. simpl. f_equal. apply IH. lia.
Qed.

Section Window.

Variable cfg : Config.
Variable ds : teach_dataset_t.

Lemma frame_ids_length : length (frame_ids ds) = length ds.
Proof. unfold frame_ids. now rewrite length_map, length_seq. Qed.

(** With a cursor on the path and a half-width that is not negative, the loop
    visits the ids from [start_idx] to [end_idx - 1] in ascending order. *)
Lemma candidates_seq (cursor : Z) :
  0 <= FRAME_SEARCH_WINDOW cfg -> 0 <= cursor < shape0 ds ->
  candidates cfg ds cursor =
  map Z.of_nat (seq (Z.to_nat (start_idx cfg cursor))
                    (Z.to_nat (end_idx cfg ds cursor - start_idx cfg cursor))).
Proof.
  intros HW Hc. unfold candidates.
  assert (Hs : 0 <= start_idx cfg cursor <= cursor) by (unfold start_idx; lia).
  assert (He : cursor < end_idx cfg ds cursor <= shape0 ds)
    by (unfold end_idx; lia).
  unfold shape0 in *.
  rewrite py_slice_inside by (rewrite ?frame_ids_length; lia).
  unfold frame_ids. rewrite skipn_map, firstn_map, skipn_seq.
  rewrite firstn_seq_le by lia.
  reflexivity.
Qed.

Lemma candidates_range (cursor j : Z) :
  0 <= FRAME_SEARCH_WINDOW cfg -> 0 <= cursor < shape0 ds ->
  (In j (candidates cfg ds cursor) <->
   start_idx cfg cursor <= j < end_idx cfg ds cursor).
Proof.
  intros HW Hc. rewrite candidates_seq by assumption.
  assert (Hs : 0 <= start_idx cfg cursor <= cursor) by (unfold start_idx; lia).
  assert (He : cursor < end_idx cfg ds cursor <= shape0 ds)
    by (unfold end_idx; lia).
  rewrite in_map_iff. split.
  - intros [i [<- Hi]]. apply in_seq in Hi. lia.
  - intros Hj. exists (Z.to_nat j). split; [lia|]. apply in_seq. lia.
Qed.

(** The window holds the cursor, so it is not empty. *)
Lemma candidates_nonempty (cursor : Z) :
  0 <= FRAME_SEARCH_WINDOW cfg -> 0 <= cursor < shape0 ds ->
  candidates cfg ds cursor <> [].
Proof.
  intros HW Hc E.
  assert (H : In cursor (candidates cfg ds cursor)).
  { apply candidates_range; try assumption.
    unfold start_idx, end_idx. lia. }
  rewrite E in H. contradiction.
Qed.

Lemma seq_split_order (pre post : list nat) (w a n : nat) :
  seq a n = pre ++ w :: post ->
  (forall j, In j pre -> (j < w)%nat) /\ (forall j, In j post -> (w < j)%nat).
Proof.
  revert a n; induction pre as [|p pre IH]; intros a n E.
  - destruct n as [|n]; [discriminate|]. simpl in E.
    injection E as <- <-. split; [contradiction|].
    intros j Hj. apply in_seq in Hj. lia.
  - destruct n as [|n]; [discriminate|]. simpl in E.
    injection E as <- E. destruct (IH _ _ E) as [Hpre Hpost].
    split; [|exact Hpost].
    intros j [<-|Hj]; [|now apply Hpre].
    assert (Hw : In w (seq (S a) n)) by (rewrite E; apply in_elt).
    apply in_seq in Hw. lia.
Qed.

(** In the window, what is scanned before an id is lower and what is scanned
    after it is higher. *)
Lemma candidates_split_order (cursor w : Z) (pre post : list Z) :
  0 <= FRAME_SEARCH_WINDOW cfg -> 0 <= cursor < shape0 ds ->
  candidates cfg ds cursor = pre ++ w :: post ->
  (forall j, In j pre -> j < w) /\ (forall j, In j post -> w < j).
Proof.
  intros HW Hc E. rewrite candidates_seq in E by assumption.
  apply map_eq_app in E. destruct E as [pre' [rest [E [Epre Erest]]]].
  apply map_eq_cons in Erest. destruct Erest as [w' [post' [-> [Ew Epost]]]].
  destruct (seq_split_order _ _ _ _ _ E) as [Hpre Hpost].
  subst pre post w. split; intros j Hj; apply in_map_iff in Hj;
    destruct Hj as [i [<- Hi]].
  - apply Hpre in Hi. lia.
  - apply Hpost in Hi. lia.
Qed.

End Window.

(** ** The scan *)

Section ScanFacts.

Variable score : Type.
Variable score_lt : score -> score -> bool.
Variable fr : LiveFrame score.

Lemma scan_step_eq (s : ScanState score) (id : Z) :
  scan_step score_lt fr s id =
  if replaces score_lt (best_score s) (max_val_of fr id) then
    mkScan (Some (max_val_of fr id)) (Some (max_loc_of fr id))
           (Some (max_loc_of fr id)) id
  else
    mkScan (best_score s) (best_max_location s) (Some (max_loc_of fr id))
           (current_matched_teach_frame_id s).
Proof.
  unfold scan_step, max_val_of, max_loc_of.
  destruct (correlate fr id) as [v l]. reflexivity.
Qed.

(** The first candidate scanned becomes the running best. *)
Lemma scan_step_first (cursor id : Z) :
  scan_step score_lt fr (mkScan None None None cursor) id =
  mkScan (Some (max_val_of fr id)) (Some (max_loc_of fr id))
         (Some (max_loc_of fr id)) id.
Proof. rewrite scan_step_eq. reflexivity. Qed.

(** The state after a scan of the ids [l]: the cursor is some scanned id [w]
    with its score and location as running best, no id scanned after [w] has
    a score above that of [w], and, [<] being an order on the scores, every
    id scanned before [w] has a score below it; the local [max_location] is
    the location of the id scanned last. *)
Lemma scan_invariant (l : list Z) (cursor : Z) :
  l <> [] ->
  let s := fold_left (scan_step score_lt fr) l (mkScan None None None cursor) in
  exists pre w post,
    l = pre ++ w :: post /\
    current_matched_teach_frame_id s = w /\
    best_score s = Some (max_val_of fr w) /\
    best_max_location s = Some (max_loc_of fr w) /\
    max_location s = Some (max_loc_of fr (last l 0)) /\
    (forall j, In j post ->
       score_lt (max_val_of fr w) (max_val_of fr j) = false) /\
    (score_order score_lt ->
     forall j, In j pre ->
       score_lt (max_val_of fr j) (max_val_of fr w) = true).
Proof.
  induction l as [|x l IH] using rev_ind; intros Hne; [contradiction|].
  cbv zeta. rewrite fold_left_app. simpl fold_left. rewrite last_last.
  destruct l as [|y l'].
  - simpl. rewrite scan_step_first.
    exists [], x, []. repeat apply conj; try reflexivity.
    + intros j [].
    + intros _ j [].
  - destruct (IH ltac:(discriminate)) as
      [pre [w [post [E [Hc [Hb [Hl [_ [Hpost Hpre]]]]]]]]].
    rewrite scan_step_eq, Hb. cbn [replaces].
    destruct (score_lt (max_val_of fr w) (max_val_of fr x)) eqn:Hlt.
    + exists (y :: l'), x, []. repeat apply conj; try reflexivity.
      * intros j [].
      * intros [Hirr [Htr Hco]] j Hj. rewrite E in Hj.
        apply in_app_or in Hj. destruct Hj as [Hj|[<-|Hj]].
        -- apply Htr with (max_val_of fr w); [now apply Hpre | exact Hlt].
        -- exact Hlt.
        -- destruct (Hco _ (max_val_of fr j) _ Hlt) as [H|H]; [|exact H].
           rewrite (Hpost j Hj) in H. discriminate.
    + exists pre, w, (post ++ [x]). repeat apply conj; try assumption;
        try reflexivity.
      * rewrite E. now rewrite <- app_assoc.
      * intros j Hj. apply in_app_or in Hj.
        destruct Hj as [Hj|[<-|[]]]; [now apply Hpost | exact Hlt].
Qed.

End ScanFacts.

(** ** Localisation *)

Section MatchingFacts.

Variable score : Type.
Variable score_lt : score -> score -> bool.
Variable cfg : Config.
Variable ds : teach_dataset_t.

(** What [ImageMatching] returns from a cursor on the path: the id of the
    running best, with the patch centre and the offsets read at the location
    found in the candidate scanned last. *)
Lemma ImageMatching_result (fr : LiveFrame score) (prev : Z) :
  0 <= FRAME_SEARCH_WINDOW cfg -> 0 <= prev < shape0 ds ->
  let l := candidates cfg ds prev in
  let s := scan score_lt cfg ds fr prev in
  exists pre w post,
    l = pre ++ w :: post /\
    ImageMatching score_lt cfg ds fr prev =
      Some (mkMatched w
              (patch_center (patch_shape fr) (max_loc_of fr (last l 0)))
              (offsets_of cfg (patch_shape fr) (max_loc_of fr (last l 0)))) /\
    current_matched_teach_frame_id s = w /\
    best_max_location s = Some (max_loc_of fr w) /\
    (forall j, In j post ->
       score_lt (max_val_of fr w) (max_val_of fr j) = false) /\
    (score_order score_lt ->
     forall j, In j pre ->
       score_lt (max_val_of fr j) (max_val_of fr w) = true).
Proof.
  intros HW Hprev l s.
  destruct (scan_invariant score score_lt fr l prev
              (candidates_nonempty cfg ds prev HW Hprev))
    as [pre [w [post [E [Hc [Hb [Hl [Hm [Hpost Hpre]]]]]]]]].
  exists pre, w, post. repeat apply conj; try assumption.
  unfold ImageMatching. fold s. unfold s, scan. fold l.
  rewrite Hm, Hc. reflexivity.
Qed.

(** The matched id lies in the window around the previous cursor. *)
Lemma ImageMatching_in_window (fr : LiveFrame score) (prev : Z) :
  0 <= FRAME_SEARCH_WINDOW cfg -> 0 <= prev < shape0 ds ->
  exists m,
    ImageMatching score_lt cfg ds fr prev = Some m /\
    matched_id m =
      current_matched_teach_frame_id (scan score_lt cfg ds fr prev) /\
    start_idx cfg prev <= matched_id m < end_idx cfg ds prev.
Proof.
  intros HW Hprev.
  destruct (ImageMatching_result fr prev HW Hprev)
    as [pre [w [post [E [Hm [Hc _]]]]]].
  eexists. split; [exact Hm|]. cbn [matched_id]. split; [now rewrite Hc|].
  apply candidates_range; try assumption. rewrite E. apply in_elt.
Qed.

Lemma run_matching_on_path (frames : list (LiveFrame score)) (cursor : Z) :
  0 <= FRAME_SEARCH_WINDOW cfg -> 0 <= cursor < shape0 ds ->
  exists c,
    run_matching score_lt cfg ds frames cursor = Some c /\ 0 <= c < shape0 ds.
Proof.
  intros HW. revert cursor.
  induction frames as [|fr rest IH]; intros cursor Hc; simpl.
  - exists cursor. now split.
  - destruct (ImageMatching_in_window fr cursor HW Hc) as [m [-> [_ Hm]]].
    apply IH. unfold start_idx, end_idx in Hm. lia.
Qed.

End MatchingFacts.

(** C10: the cursor starts at 0, a valid index of a path of length [N >= 1];
    with a half-width that is not negative, every call of [ImageMatching]
    from a valid cursor [prev] scans a window that is not empty, whose first
    candidate initialises the running best, and returns a matched id, the new
    cursor, in [[max(0, prev - w), min(N, prev + w + 1))], hence in [[0, N)];
    so over any run of frames the cursor stays a valid index. *)
Theorem cursor_stays_on_path (score : Type) (score_lt : score -> score -> bool)
  (cfg : Config) (ds : teach_dataset_t) :
  1 <= shape0 ds -> 0 <= FRAME_SEARCH_WINDOW cfg ->
  0 <= initial_cursor < shape0 ds /\
  (forall (fr : LiveFrame score) (prev : Z), 0 <= prev < shape0 ds ->
     (exists first rest,
        candidates cfg ds prev = first :: rest /\
        scan_step score_lt fr (mkScan None None None prev) first =
        mkScan (Some (max_val_of fr first)) (Some (max_loc_of fr first))
               (Some (max_loc_of fr first)) first) /\
     exists m,
       ImageMatching score_lt cfg ds fr prev = Some m /\
       matched_id m =
         current_matched_teach_frame_id (scan score_lt cfg ds fr prev) /\
       Z.max 0 (prev - FRAME_SEARCH_WINDOW cfg) <= matched_id m
         < Z.min (shape0 ds) (prev + FRAME_SEARCH_WINDOW cfg + 1) /\
       0 <= matched_id m < shape0 ds) /\
  (forall frames : list (LiveFrame score),
     exists c,
       run_matching score_lt cfg ds frames initial_cursor = Some c /\
       0 <= c < shape0 ds).
Proof.
  intros HN HW. unfold initial_cursor. split; [lia|]. split.
  - intros fr prev Hprev. split.
    + assert (Hne := candidates_nonempty cfg ds prev HW Hprev).
      destruct (candidates cfg ds prev) as [|first rest]; [contradiction|].
      exists first, rest. split; [reflexivity|]. apply scan_step_first.
    + destruct (ImageMatching_in_window score score_lt cfg ds fr prev HW Hprev)
        as [m [Hm [Hc Hr]]].
      exists m. unfold start_idx, end_idx in Hr.
      repeat apply conj; try assumption; lia.
  - intros frames. apply run_matching_on_path; [assumption|lia].
Qed.

Lemma cursor_stays_on_path_witness :
  (1 <= shape0 straight_path5 /\ 0 <= FRAME_SEARCH_WINDOW default_config) /\
  exists c,
    run_matching Z.ltb default_config straight_path5
      [frame_best_at_0; frame_tie_1_2] initial_cursor = Some c /\
    0 <= c < shape0 straight_path5.
Proof.
  assert (H : 1 <= shape0 straight_path5 /\
              0 <= FRAME_SEARCH_WINDOW default_config)
    by (unfold shape0; simpl; lia).
  split; [exact H|].
  apply (cursor_stays_on_path Z Z.ltb default_config straight_path5);
    apply H.
Defined.

Example run_matching_two_frames :
  run_matching Z.ltb default_config straight_path5
    [frame_best_at_0; frame_tie_1_2] initial_cursor = Some 1.
Proof. reflexivity. Qed.

Lemma Z_ltb_order : score_order Z.ltb.
Proof.
  repeat apply conj.
  - intros a. apply Z.ltb_irrefl.
  - intros a b c Hab Hbc. apply Z.ltb_lt in Hab, Hbc. apply Z.ltb_lt. lia.
  - intros a b c Hac. apply Z.ltb_lt in Hac.
    destruct (Z.ltb_spec a b); [now left|]. right. apply Z.ltb_lt. lia.
Qed.

(** C4: in the scan a candidate replaces the running best exactly when its
    maximum is strictly greater than the best score; so, the scores being
    ordered by [<], the matched id, which becomes the cursor, has a score
    that no candidate of the window exceeds, and every candidate whose score
    reaches it (is not below it, in particular is equal to it) has an id at
    least the matched id: among ties the lowest id wins. *)
Theorem ties_select_lowest_id (score : Type) (score_lt : score -> score -> bool)
  (cfg : Config) (ds : teach_dataset_t) (fr : LiveFrame score) (prev : Z) :
  score_order score_lt ->
  0 <= FRAME_SEARCH_WINDOW cfg -> 0 <= prev < shape0 ds ->
  (forall (s : ScanState score) (id : Z) (b : score),
     best_score s = Some b ->
     (score_lt b (max_val_of fr id) = true ->
      scan_step score_lt fr s id =
      mkScan (Some (max_val_of fr id)) (Some (max_loc_of fr id))
             (Some (max_loc_of fr id)) id) /\
     (score_lt b (max_val_of fr id) = false ->
      scan_step score_lt fr s id =
      mkScan (Some b) (best_max_location s) (Some (max_loc_of fr id))
             (current_matched_teach_frame_id s))) /\
  exists m,
    ImageMatching score_lt cfg ds fr prev = Some m /\
    matched_id m =
      current_matched_teach_frame_id (scan score_lt cfg ds fr prev) /\
    In (matched_id m) (candidates cfg ds prev) /\
    (forall j, In j (candidates cfg ds prev) ->
       score_lt (max_val_of fr (matched_id m)) (max_val_of fr j) = false) /\
    (forall j, In j (candidates cfg ds prev) ->
       score_lt (max_val_of fr j) (max_val_of fr (matched_id m)) = false ->
       matched_id m <= j) /\
    (forall j, In j (candidates cfg ds prev) ->
       max_val_of fr j = max_val_of fr (matched_id m) ->
       matched_id m <= j).
Proof.
  intros Hord HW Hprev. split.
  - intros s id b Hb. rewrite scan_step_eq, Hb. cbn [replaces].
    split; intros ->; reflexivity.
  - destruct (ImageMatching_result score score_lt cfg ds fr prev HW Hprev)
      as [pre [w [post [E [Hm [Hc [_ [Hpost Hpre]]]]]]]].
    destruct (candidates_split_order cfg ds prev w pre post HW Hprev E)
      as [Hlow Hhigh].
    assert (Hirr : forall a, score_lt a a = false) by apply Hord.
    assert (Htr : forall a b c, score_lt a b = true -> score_lt b c = true ->
                                score_lt a c = true) by apply Hord.
    assert (Hlowest : forall j, In j (candidates cfg ds prev) ->
              score_lt (max_val_of fr j) (max_val_of fr w) = false -> w <= j).
    { intros j Hj Hnot. rewrite E in Hj. apply in_app_or in Hj.
      destruct Hj as [Hj|[<-|Hj]].
      - rewrite (Hpre Hord j Hj) in Hnot. discriminate.
      - lia.
      - apply Hhigh in Hj. lia. }
    eexists. split; [exact Hm|]. cbn [matched_id].
    repeat apply conj.
    + now rewrite Hc.
    + rewrite E. apply in_elt.
    + intros j Hj. rewrite E in Hj. apply in_app_or in Hj.
      destruct Hj as [Hj|[<-|Hj]].
      * destruct (score_lt (max_val_of fr w) (max_val_of fr j)) eqn:Hwj;
          [|reflexivity].
        rewrite <- (Hirr (max_val_of fr j)).
        symmetry. apply Htr with (max_val_of fr w); [now apply Hpre | exact Hwj].
      * apply Hirr.
      * now apply Hpost.
    + exact Hlowest.
    + intros j Hj Heq. apply Hlowest; [exact Hj|]. rewrite Heq. apply Hirr.
Qed.

Lemma ties_select_lowest_id_witness :
  (score_order Z.ltb /\ 0 <= FRAME_SEARCH_WINDOW default_config /\
   0 <= 0 < shape0 straight_path5) /\
  exists m,
    ImageMatching Z.ltb default_config straight_path5 frame_tie_1_2 0 = Some m /\
    matched_id m =
      current_matched_teach_frame_id
        (scan Z.ltb default_config straight_path5 frame_tie_1_2 0) /\
    In (matched_id m) (candidates default_config straight_path5 0) /\
    (forall j, In j (candidates default_config straight_path5 0) ->
       Z.ltb (max_val_of frame_tie_1_2 (matched_id m))
             (max_val_of frame_tie_1_2 j) = false) /\
    (forall j, In j (candidates default_config straight_path5 0) ->
       Z.ltb (max_val_of frame_tie_1_2 j)
             (max_val_of frame_tie_1_2 (matched_id m)) = false ->
       matched_id m <= j) /\
    (forall j, In j (candidates default_config straight_path5 0) ->
       max_val_of frame_tie_1_2 j = max_val_of frame_tie_1_2 (matched_id m) ->
       matched_id m <= j).
Proof.
  assert (H : 0 <= FRAME_SEARCH_WINDOW default_config /\
              0 <= 0 < shape0 straight_path5)
    by (unfold shape0; simpl; lia).
  split; [split; [exact Z_ltb_order | exact H]|].
  apply (ties_select_lowest_id Z Z.ltb default_config straight_path5
           frame_tie_1_2 0 Z_ltb_order); apply H.
Defined.

(** The teach frames 1 and 2 tie: frame 1 is matched. *)
Example tie_matches_frame_1 :
  option_map matched_id
    (ImageMatching Z.ltb default_config straight_path5 frame_tie_1_2 0) = Some 1.
Proof. reflexivity. Qed.

(** C3: on the straight path, from cursor 0, with a frame whose best match is
    teach frame 0 at location (13, 10) and whose correlation with the teach
    frame scanned last, frame 3, peaks at (2, 10): the matched id is 0 and
    the running best keeps the location (13, 10), but the patch centre and
    the offset are computed from (2, 10), the location of the candidate
    scanned last. *)
Theorem offset_read_at_last_scanned :
  exists m,
    ImageMatching Z.ltb default_config straight_path5 frame_best_at_0 0 = Some m /\
    matched_id m = 0 /\
    candidates default_config straight_path5 0 = [0; 1; 2; 3] /\
    winning_location (scan Z.ltb default_config straight_path5 frame_best_at_0 0)
      = Some (13, 10) /\
    patch_center_location m = patch_center (28, 38) (2, 10) /\
    offsets m = offsets_of default_config (28, 38) (2, 10) /\
    patch_center_location m <> patch_center (28, 38) (13, 10) /\
    (snd (fst (offsets m)) = 22 / 100)%R /\
    (snd (fst (offsets_of default_config (28, 38)%Z (13, 10)%Z)) = 0)%R.
Proof.
  eexists. split; [reflexivity|]. cbn [matched_id patch_center_location offsets].
  repeat apply conj; try reflexivity.
  - unfold patch_center; cbn [fst snd]. intros H. injection H as H. lra.
  - unfold offsets_of, patch_center; cbn. lra.
  - unfold offsets_of, patch_center; cbn. lra.
Qed.

(** ** The lateral offset *)

(** C7, as stated, fails for an odd comparison width: with width 65 the code
    measures from column [65 // 2 = 32], not from 65 / 2. The offset of a
    patch of width 39 found at (0, 0) differs from the stated one (also when
    both divisions are read as integer divisions), and a patch centre at
    column 32, strictly left of 65 / 2, yields the offset 0, which is not
    strictly positive. *)
Lemma offset_measured_from_floor_half_width :
  (snd (fst (offsets_of odd_width_config (29, 39)%Z (0, 0)%Z)) <>
   Y_OFFSET_SCALE_FACTOR odd_width_config *
   (IZR (fst (IMAGE_COMPARISON_SIZE odd_width_config)) / 2
    - fst (patch_center (29, 39)%Z (0, 0)%Z)))%R /\
  (snd (fst (offsets_of odd_width_config (29, 39)%Z (0, 0)%Z)) <>
   Y_OFFSET_SCALE_FACTOR odd_width_config *
   (IZR (fst (IMAGE_COMPARISON_SIZE odd_width_config) / 2)
    - (IZR 0 + IZR (39 / 2))))%R /\
  (0 < Y_OFFSET_SCALE_FACTOR odd_width_config)%R /\
  (fst (patch_center (29, 38)%Z (13, 0)%Z)
   < IZR (fst (IMAGE_COMPARISON_SIZE odd_width_config)) / 2)%R /\
  ~ (0 < snd (fst (offsets_of odd_width_config (29, 38)%Z (13, 0)%Z)))%R.
Proof.
  unfold offsets_of, patch_center; cbn. repeat apply conj; lra.
Qed.

(** C7, amended: for every match location the offsets are
    [(scale_x * 0, scale_y * (comparison_width // 2 - patch_center.x),
    scale_yaw * 0)] with [patch_center = match_location + patch_size / 2] and
    [//] the integer division; the longitudinal and the heading component are
    exactly zero; with a positive [scale_y], a patch centre strictly left of
    column [comparison_width // 2] yields a strictly positive lateral offset
    and one strictly right of it a strictly negative one; and for an even
    comparison width [comparison_width // 2] is [comparison_width / 2]. *)
Theorem offsets_of_match_location (cfg : Config) (patch_size location : Z * Z) :
  let width := fst (IMAGE_COMPARISON_SIZE cfg) in
  let center := patch_center patch_size location in
  let lateral := snd (fst (offsets_of cfg patch_size location)) in
  (center = (IZR (fst location) + IZR (snd patch_size) / 2,
             IZR (snd location) + IZR (fst patch_size) / 2))%R /\
  (offsets_of cfg patch_size location =
   (X_OFFSET_SCALE_FACTOR cfg * 0,
    Y_OFFSET_SCALE_FACTOR cfg * (IZR (width / 2) - fst center),
    YAW_OFFSET_SCALE_FACTOR cfg * 0))%R /\
  (fst (fst (offsets_of cfg patch_size location)) = 0)%R /\
  (snd (offsets_of cfg patch_size location) = 0)%R /\
  (0 < Y_OFFSET_SCALE_FACTOR cfg -> fst center < IZR (width / 2) ->
   0 < lateral)%R /\
  (0 < Y_OFFSET_SCALE_FACTOR cfg -> IZR (width / 2) < fst center ->
   lateral < 0)%R /\
  (Z.even width = true -> IZR (width / 2) = IZR width / 2)%R.
Proof.
  cbv zeta. unfold offsets_of. cbn [fst snd].
  repeat apply conj; try reflexivity.
  - ring.
  - ring.
  - intros Hy Hc. apply Rmult_lt_0_compat; lra.
  - intros Hy Hc.
    replace 0%R with (Y_OFFSET_SCALE_FACTOR cfg * 0)%R by ring.
    apply Rmult_lt_compat_l; lra.
  - intros He. apply Z.even_spec in He. destruct He as [h Hh].
    rewrite Hh. rewrite Z.mul_comm, Z.div_mul by lia.
    rewrite mult_IZR. simpl IZR. lra.
Qed.

(** * Further properties of the node *)

(** ** Availability of a segment *)

Lemma py_slice_backward {A : Type} (l : list A) (a b : Z) :
  0 <= b <= a -> py_slice l a b = [].
Proof.
  intros Hab. unfold py_slice, slice_bound.
  destruct (Z.ltb_spec a 0); [lia|].
  destruct (Z.ltb_spec b 0); [lia|].
  replace (Z.to_nat (Z.min b (Z.of_nat (length l))
                     - Z.min a (Z.of_nat (length l)))) with 0%nat by lia.
  reflexivity.
Qed.

(** A look-ahead past the end stops at the last row. *)
Lemma RelativeTF_clamp (ds : teach_dataset_t) (k to : Z) :
  0 <= k < shape0 ds - 1 -> shape0 ds - 1 <= to ->
  RelativeTFBetweenFrames ds k to = RelativeTFBetweenFrames ds k (shape0 ds - 1).
Proof.
  intros Hk Hto. unfold RelativeTFBetweenFrames, shape0 in *.
  destruct (Z.eqb_spec k to) as [E|_]; [lia|].
  destruct (Z.eqb_spec k (Z.of_nat (length ds) - 1)) as [E|_]; [lia|].
  rewrite py_slice_clamp by lia.
  replace (Z.of_nat (length ds) - 1 + 1) with (Z.of_nat (length ds)) by lia.
  reflexivity.
Qed.

Lemma lookahead_at_least_1 (cfg : Config) : 1 <= TARGET_FRAME_LOOKAHEAD cfg.
Proof. unfold TARGET_FRAME_LOOKAHEAD. lia. Qed.

(** X1: For ids that are not negative, [RelativeTFBetweenFrames] returns the
    empty array exactly when the goal id lies before the current id, or lies
    after it while no row follows the current id; in every other case it
    returns a transform. *)
Theorem segment_available_iff (ds : teach_dataset_t) (k to : Z) :
  0 <= k -> 0 <= to ->
  (RelativeTFBetweenFrames ds k to = None <->
   to < k \/ (k < to /\ shape0 ds <= k + 1)).
Proof.
  intros Hk Hto. destruct (Z.eq_dec k to) as [E|NE].
  - subst to. unfold RelativeTFBetweenFrames. rewrite Z.eqb_refl.
    split; [discriminate | lia].
  - rewrite (RelativeTF_none_iff ds k to NE). unfold shape0. split.
    + intros Hnil. destruct (Z.lt_ge_cases to k) as [Hlt|Hge]; [now left|].
      right. split; [lia|].
      destruct (Z.le_gt_cases (Z.of_nat (length ds)) (k + 1)) as [H|H];
        [exact H|].
      exfalso. revert Hnil. apply py_slice_nonempty; lia.
    + intros [Hlt|[Hlt Hend]].
      * apply py_slice_backward. lia.
      * apply py_slice_past_end; lia.
Qed.

Lemma segment_available_iff_witness :
  (0 <= 4 /\ 0 <= 2) /\
  (RelativeTFBetweenFrames straight_path5 4 2 = None <->
   2 < 4 \/ (4 < 2 /\ shape0 straight_path5 <= 4 + 1)).
Proof.
  split; [lia|].
  apply (segment_available_iff straight_path5 4 2); lia.
Defined.

(** ** When the controller stops *)

(** X2: Because the look-ahead is at least 1, on a path of [N >= 1] frames the
    controller takes its end-of-path branch exactly when the matched id is
    the last id [N - 1]; before it, the goal is the segment to the
    look-ahead id, cut at the last id, and the command gets the speed and
    steering angle of the control law. *)
Theorem controller_stops_iff_last_frame (cfg : Config) (ds : teach_dataset_t)
  (cmd : AckermannDrive) (id : Z) (offs : R * R * R) :
  1 <= shape0 ds -> 0 <= id <= shape0 ds - 1 ->
  (RelativeTFBetweenFrames ds id (id + TARGET_FRAME_LOOKAHEAD cfg) = None <->
   id = shape0 ds - 1) /\
  (id = shape0 ds - 1 -> Controller cfg ds cmd id offs = set_speed 0 cmd) /\
  (id < shape0 ds - 1 ->
   exists goal,
     RelativeTFBetweenFrames ds id
       (Z.min (id + TARGET_FRAME_LOOKAHEAD cfg) (shape0 ds - 1)) = Some goal /\
     let g := offset_goal offs goal in
     let law := control_law cfg (distance_of_trans g)
                  (arctan2 (m13 g) (m03 g)) (yaw_from_trans g) in
     Controller cfg ds cmd id offs =
     set_steering_angle (snd law) (set_speed (fst law) cmd)).
Proof.
  intros HN Hid. assert (HL := lookahead_at_least_1 cfg).
  assert (Hiff : RelativeTFBetweenFrames ds id
                   (id + TARGET_FRAME_LOOKAHEAD cfg) = None <->
                 id = shape0 ds - 1).
  { rewrite RelativeTF_none_iff by lia. unfold shape0 in *. split.
    - intros Hnil.
      destruct (Z.eq_dec id (Z.of_nat (length ds) - 1)) as [E|NE]; [exact E|].
      exfalso. revert Hnil. apply py_slice_nonempty; lia.
    - intros E. apply py_slice_past_end; lia. }
  split; [exact Hiff|]. split.
  - intros E. apply Controller_stop. now apply Hiff.
  - intros Hlt.
    assert (Hsame : RelativeTFBetweenFrames ds id
                      (id + TARGET_FRAME_LOOKAHEAD cfg) =
                    RelativeTFBetweenFrames ds id
                      (Z.min (id + TARGET_FRAME_LOOKAHEAD cfg) (shape0 ds - 1))).
    { destruct (Z.le_gt_cases (id + TARGET_FRAME_LOOKAHEAD cfg) (shape0 ds - 1)).
      - now rewrite Z.min_l by lia.
      - rewrite Z.min_r by lia. apply RelativeTF_clamp; lia. }
    destruct (RelativeTFBetweenFrames ds id (id + TARGET_FRAME_LOOKAHEAD cfg))
      as [goal|] eqn:Hgoal.
    + exists goal. split; [now rewrite <- Hsame|].
      cbv zeta. unfold Controller. rewrite Hgoal. reflexivity.
    + exfalso. assert (id = shape0 ds - 1) by (now apply Hiff). lia.
Qed.

Lemma controller_stops_iff_last_frame_witness :
  (1 <= shape0 straight_path5 /\ 0 <= 4 <= shape0 straight_path5 - 1) /\
  (4 = shape0 straight_path5 - 1 ->
   Controller default_config straight_path5 (init_cmd (5 / 10)%R) 4
     (0, 0, 0)%R = set_speed 0 (init_cmd (5 / 10)%R)).
Proof.
  assert (H : 1 <= shape0 straight_path5 /\ 0 <= 4 <= shape0 straight_path5 - 1)
    by (unfold shape0; simpl; lia).
  split; [exact H|].
  apply (controller_stops_iff_last_frame default_config straight_path5
           (init_cmd (5 / 10)%R) 4 (0, 0, 0)%R); apply H.
Defined.

(** ** What the controller reads of the dataset *)

Lemma frame_tf_of_row_odom (row : TeachRow) :
  frame_tf_of_row row =
  frame_tf_of_row (mkRow (relative_odom_x row) (relative_odom_y row)
                         (relative_odom_yaw row) 0 0 0).
Proof. destruct row. reflexivity. Qed.

Lemma fold_build_up_odom (rows1 rows2 : list TeachRow) (acc : option trans) :
  odom_columns rows1 = odom_columns rows2 ->
  fold_left build_up rows1 acc = fold_left build_up rows2 acc.
Proof.
  revert rows2 acc; induction rows1 as [|r1 rows1 IH]; intros rows2 acc E;
    destruct rows2 as [|r2 rows2]; try discriminate; [reflexivity|].
  simpl in E. injection E as Ex Ey Eyaw E. simpl.
  replace (build_up acc r1) with (build_up acc r2); [now apply IH|].
  unfold build_up.
  rewrite (frame_tf_of_row_odom r1), (frame_tf_of_row_odom r2).
  now rewrite Ex, Ey, Eyaw.
Qed.

Lemma odom_columns_slice (ds : teach_dataset_t) (a b : Z) :
  odom_columns (py_slice ds a b) = py_slice (odom_columns ds) a b.
Proof.
  unfold py_slice, odom_columns.
  now rewrite length_map, skipn_map, firstn_map.
Qed.

(** X3: The segments, and with them the commands, depend on the [relative_odom]
    columns of the dataset only: two datasets that agree on these columns
    give the same transform between any two ids and the same command,
    whatever their [relative_pose] columns hold. *)
Theorem relative_pose_is_not_read (cfg : Config) (ds1 ds2 : teach_dataset_t) :
  odom_columns ds1 = odom_columns ds2 ->
  (forall k to,
     RelativeTFBetweenFrames ds1 k to = RelativeTFBetweenFrames ds2 k to) /\
  (forall cmd id offs,
     Controller cfg ds1 cmd id offs = Controller cfg ds2 cmd id offs).
Proof.
  intros E.
  assert (Hseg : forall k to,
            RelativeTFBetweenFrames ds1 k to = RelativeTFBetweenFrames ds2 k to).
  { intros k to. unfold RelativeTFBetweenFrames.
    destruct (k =? to); [reflexivity|].
    apply fold_build_up_odom. rewrite !odom_columns_slice. now rewrite E. }
  split; [exact Hseg|].
  intros cmd id offs. unfold Controller. now rewrite Hseg.
Qed.

Lemma relative_pose_is_not_read_witness :
  odom_columns straight_path5 =
  odom_columns (map (fun row => mkRow (relative_odom_x row) (relative_odom_y row)
                                      (relative_odom_yaw row) 7 7 7)%R
                    straight_path5) /\
  (forall cmd id offs,
     Controller default_config straight_path5 cmd id offs =
     Controller default_config
       (map (fun row => mkRow (relative_odom_x row) (relative_odom_y row)
                              (relative_odom_yaw row) 7 7 7)%R straight_path5)
       cmd id offs).
Proof.
  split; [reflexivity|].
  apply (relative_pose_is_not_read default_config straight_path5
           (map (fun row => mkRow (relative_odom_x row) (relative_odom_y row)
                                  (relative_odom_yaw row) 7 7 7)%R
                straight_path5)).
  reflexivity.
Defined.

(** ** The goal seen from the offset pose *)

Section OffsetGoal.

Local Open Scope R_scope.

Lemma offset_goal_no_yaw (ox oy : R) (g : trans) :
  offset_goal (ox, oy, 0) g =
  mkTrans (m00 g) (m01 g) (m03 g - ox) (m10 g) (m11 g) (m13 g - oy).
Proof.
  unfold offset_goal. rewrite quaternion_of_yaw.
  replace (0 / 2) with 0 by lra. rewrite sin_0, cos_0.
  destruct g; unfold diff_trans, inverse_trans, append_trans, pose_msg_to_trans;
    simpl; f_equal; field.
Qed.

End OffsetGoal.

(** X4: The offsets that [ImageMatching] computes have no longitudinal and no
    heading part, so in the controller they move the look-ahead goal sideways
    only: the goal keeps its rotation (hence [beta]) and its forward
    coordinate, and its lateral coordinate is lowered by the lateral offset. *)
Theorem matching_offset_shifts_goal_sideways (cfg : Config)
  (patch_size location : Z * Z) (goal : trans) :
  let offs := offsets_of cfg patch_size location in
  let g := offset_goal offs goal in
  (m00 g = m00 goal /\ m01 g = m01 goal /\ m10 g = m10 goal /\
   m11 g = m11 goal /\
   m03 g = m03 goal /\
   m13 g = m13 goal - snd (fst offs) /\
   yaw_from_trans g = yaw_from_trans goal)%R.
Proof.
  cbv zeta. unfold offsets_of. cbn [fst snd].
  rewrite !Rmult_0_r. rewrite offset_goal_no_yaw.
  unfold yaw_from_trans. cbn [m00 m01 m03 m10 m11 m13].
  repeat apply conj; try reflexivity. ring.
Qed.

(** ** Driving along a straight stretch *)

Section Straight.

Local Open Scope R_scope.

Lemma straight_row_tf (row : TeachRow) :
  straight_row row ->
  frame_tf_of_row row = mkTrans 1 0 (relative_odom_x row) 0 1 0.
Proof.
  intros [Hy [Hyaw _]]. destruct row as [x y yaw px py pyaw]. simpl in *.
  subst y yaw. apply frame_tf_of_row_straight.
Qed.

Lemma travelled_nonneg (rows : list TeachRow) :
  Forall straight_row rows -> 0 <= travelled rows.
Proof.
  unfold travelled. induction 1 as [|row rows [_ [_ Hx]] _ IH]; simpl; lra.
Qed.

Lemma straight_chain (rows : list TeachRow) (a : R) :
  Forall straight_row rows ->
  fold_left chain_step rows (mkTrans 1 0 a 0 1 0) =
  mkTrans 1 0 (a + travelled rows) 0 1 0.
Proof.
  intros H. revert a. unfold travelled.
  induction H as [|row rows Hrow _ IH]; intros a; simpl.
  - f_equal. ring.
  - unfold chain_step at 2. rewrite (straight_row_tf row Hrow).
    unfold append_trans; simpl.
    replace (mkTrans (1 * 1 + 0 * 0) (1 * 0 + 0 * 1)
               (1 * relative_odom_x row + 0 * 0 + a)
               (0 * 1 + 1 * 0) (0 * 0 + 1 * 1)
               (0 * relative_odom_x row + 1 * 0 + 0))
      with (mkTrans 1 0 (a + relative_odom_x row) 0 1 0) by (f_equal; ring).
    rewrite IH. f_equal. ring.
Qed.

(** The control law on a goal straight ahead at distance [d >= 0]. *)
Lemma control_law_straight_ahead (cfg : Config) (d : R) :
  0 <= d ->
  MIN_STEERING_ANGLE cfg <= 0 <= MAX_STEERING_ANGLE cfg ->
  let g := mkTrans 1 0 d 0 1 0 in
  control_law cfg (distance_of_trans g) (arctan2 (m13 g) (m03 g))
              (yaw_from_trans g) =
  (lin_vel_of cfg d, 0).
Proof.
  intros Hd Hs g. subst g. unfold distance_of_trans, yaw_from_trans. simpl.
  assert (Hrho : sqrt (d * d + 0 * 0) = d).
  { replace (d * d + 0 * 0) with (Rsqr d) by (unfold Rsqr; ring).
    now apply sqrt_Rsqr. }
  assert (Halpha : arctan2 0 d = 0).
  { destruct (Rle_lt_or_eq_dec 0 d Hd) as [Hpos|<-].
    - rewrite arctan2_pos by exact Hpos.
      replace (0 / d) with 0 by (field; lra). apply atan_0.
    - apply arctan2_0_0. }
  assert (Hbeta : arctan2 0 1 = 0).
  { rewrite arctan2_pos by lra. replace (0 / 1) with 0 by field. apply atan_0. }
  rewrite Hrho, Halpha, Hbeta. unfold control_law. f_equal.
  unfold ang_vel_of, raw_steering. rewrite !Rmult_0_r, Rplus_0_r.
  assert (Hraw : (if Req_dec_T (lin_vel_of cfg d) 0 then 0
                  else atan (0 * WHEEL_BASE cfg / lin_vel_of cfg d)) = 0).
  { destruct (Req_dec_T (lin_vel_of cfg d) 0) as [_|NE]; [reflexivity|].
    replace (0 * WHEEL_BASE cfg / lin_vel_of cfg d) with 0 by (field; exact NE).
    apply atan_0. }
  rewrite Hraw. unfold limit_steering.
  rewrite Rmax_left by lra. apply Rmin_left. lra.
Qed.

End Straight.

(** X5: When the rows between the matched id and the look-ahead id all go
    straight ahead (no side step, no turn, not backwards) and the offset is
    zero, the controller commands a zero steering angle, for limits that
    admit it, and the speed [clamp(rho_gain * d, 0, max_speed)] for the
    distance [d] that these rows cover. *)
Theorem straight_stretch_drives_straight (cfg : Config) (ds : teach_dataset_t)
  (cmd : AckermannDrive) (id : Z) :
  let rows := py_slice ds (id + 1) (id + TARGET_FRAME_LOOKAHEAD cfg + 1) in
  0 <= id -> id + 1 < shape0 ds ->
  Forall straight_row rows ->
  (0 <= MAX_FORWARD_VELOCITY cfg)%R ->
  (MIN_STEERING_ANGLE cfg <= 0 <= MAX_STEERING_ANGLE cfg)%R ->
  let out := Controller cfg ds cmd id (0, 0, 0)%R in
  speed out =
    clamp (RHO_GAIN cfg * travelled rows) 0 (MAX_FORWARD_VELOCITY cfg) /\
  steering_angle out = 0%R.
Proof.
  intros rows Hid Hnext Hrows Hv Hs out. subst out.
  assert (HL := lookahead_at_least_1 cfg).
  assert (Hgoal : RelativeTFBetweenFrames ds id
                    (id + TARGET_FRAME_LOOKAHEAD cfg) =
                  Some (mkTrans 1 0 (travelled rows) 0 1 0)).
  { unfold RelativeTFBetweenFrames.
    destruct (Z.eqb_spec id (id + TARGET_FRAME_LOOKAHEAD cfg)) as [E|_]; [lia|].
    fold rows.
    assert (Hne : rows <> []) by (apply py_slice_nonempty; unfold shape0 in *; lia).
    rewrite fold_build_up_none.
    destruct rows as [|r rest]; [contradiction|].
    inversion Hrows as [|? ? Hr Hrest]; subst.
    rewrite (straight_row_tf r Hr), (straight_chain rest _ Hrest).
    reflexivity. }
  unfold Controller. rewrite Hgoal, offset_goal_zero.
  rewrite (control_law_straight_ahead cfg (travelled rows)
             (travelled_nonneg rows Hrows) Hs).
  cbn [speed steering_angle set_speed set_steering_angle].
  split; [|reflexivity].
  unfold lin_vel_of. now apply min_max_is_clamp.
Qed.

Lemma straight_stretch_drives_straight_witness :
  (0 <= 0 /\ 0 + 1 < shape0 straight_path5 /\
   Forall straight_row
     (py_slice straight_path5 (0 + 1)
        (0 + TARGET_FRAME_LOOKAHEAD default_config + 1)) /\
   (0 <= MAX_FORWARD_VELOCITY default_config)%R /\
   (MIN_STEERING_ANGLE default_config <= 0
    <= MAX_STEERING_ANGLE default_config)%R) /\
  steering_angle
    (Controller default_config straight_path5 (init_cmd (5 / 10)%R) 0
       (0, 0, 0)%R) = 0%R.
Proof.
  assert (Hn : 0 + 1 < shape0 straight_path5) by (unfold shape0; simpl; lia).
  assert (Hrows : Forall straight_row
            (py_slice straight_path5 (0 + 1)
               (0 + TARGET_FRAME_LOOKAHEAD default_config + 1))).
  { rewrite py_slice_inside by (simpl; lia). simpl.
    repeat constructor; simpl; lra. }
  assert (Hlim := default_limits).
  assert (Hs : (MIN_STEERING_ANGLE default_config <= 0
                <= MAX_STEERING_ANGLE default_config)%R) by lra.
  split.
  - split; [lia|]. split; [exact Hn|]. split; [exact Hrows|].
    split; [apply Hlim | exact Hs].
  - apply (straight_stretch_drives_straight default_config straight_path5
             (init_cmd (5 / 10)%R) 0 (Z.le_refl 0) Hn Hrows
             (proj1 Hlim) Hs).
Defined.

(** ** The side the car steers to *)

Section SteeringSide.

Local Open Scope R_scope.

Lemma limit_steering_nonneg (cfg : Config) (a : R) :
  0 <= a -> 0 <= MAX_STEERING_ANGLE cfg -> 0 <= limit_steering cfg a.
Proof.
  intros Ha Hmax. unfold limit_steering. apply Rmin_glb; [|exact Hmax].
  apply Rle_trans with a; [exact Ha | apply Rmax_l].
Qed.

Lemma limit_steering_nonpos (cfg : Config) (a : R) :
  a <= 0 -> MIN_STEERING_ANGLE cfg <= 0 -> limit_steering cfg a <= 0.
Proof.
  intros Ha Hmin. unfold limit_steering.
  apply Rle_trans with (Rmax a (MIN_STEERING_ANGLE cfg)); [apply Rmin_l|].
  now apply Rmax_lub.
Qed.

End SteeringSide.

(** X6: With a positive wheel base and steering limits around zero, the control
    law steers to the side of the angular velocity
    [omega = alpha_gain * alpha + beta_gain * beta] whenever the speed is
    positive: not to the right for [omega >= 0], not to the left for
    [omega <= 0]; the clamp never flips the sign. At speed zero, or with
    [omega = 0], the steering angle is zero. *)
Theorem steering_follows_angular_velocity (cfg : Config) (rho alpha beta : R) :
  (0 < WHEEL_BASE cfg)%R ->
  (MIN_STEERING_ANGLE cfg <= 0 <= MAX_STEERING_ANGLE cfg)%R ->
  let v := fst (control_law cfg rho alpha beta) in
  let steering := snd (control_law cfg rho alpha beta) in
  let omega := ang_vel_of cfg alpha beta in
  ((0 < v -> 0 <= omega -> 0 <= steering) /\
   (0 < v -> omega <= 0 -> steering <= 0) /\
   (v = 0 -> steering = 0) /\
   (omega = 0 -> steering = 0))%R.
Proof.
  intros Hwb Hs. cbv zeta. unfold control_law. cbn [fst snd].
  set (v := lin_vel_of cfg rho). set (omega := ang_vel_of cfg alpha beta).
  assert (Hzero : limit_steering cfg 0 = 0%R).
  { unfold limit_steering. rewrite Rmax_left by lra. apply Rmin_left. lra. }
  unfold raw_steering. repeat apply conj.
  - intros Hv Ho. destruct (Req_dec_T v 0) as [E|_]; [lra|].
    apply limit_steering_nonneg; [|lra].
    rewrite <- atan_0.
    destruct (Rle_lt_or_eq_dec _ _ Ho) as [Hpos|<-].
    + left. apply atan_increasing.
      apply Rdiv_lt_0_compat; [|exact Hv]. now apply Rmult_lt_0_compat.
    + right. f_equal. field. lra.
  - intros Hv Ho. destruct (Req_dec_T v 0) as [E|_]; [lra|].
    apply limit_steering_nonpos; [|lra].
    rewrite <- atan_0.
    destruct (Rle_lt_or_eq_dec _ _ Ho) as [Hneg | ->].
    + left. apply atan_increasing.
      assert (H : (0 < - omega * WHEEL_BASE cfg / v)%R).
      { apply Rdiv_lt_0_compat; [|exact Hv]. apply Rmult_lt_0_compat; lra. }
      replace (omega * WHEEL_BASE cfg / v)%R
        with (- (- omega * WHEEL_BASE cfg / v))%R by (field; lra).
      lra.
    + right. f_equal. field. lra.
  - intros E. destruct (Req_dec_T v 0) as [_|NE]; [exact Hzero|contradiction].
  - intros E. destruct (Req_dec_T v 0) as [_|NE]; [exact Hzero|].
    rewrite E. replace (0 * WHEEL_BASE cfg / v)%R with 0%R by (field; exact NE).
    rewrite atan_0. exact Hzero.
Qed.

Lemma steering_follows_angular_velocity_witness :
  ((0 < WHEEL_BASE default_config)%R /\
   (MIN_STEERING_ANGLE default_config <= 0
    <= MAX_STEERING_ANGLE default_config)%R) /\
  (ang_vel_of default_config 0 0 = 0 ->
   snd (control_law default_config 1 0 0) = 0)%R.
Proof.
  assert (Hlim := default_limits).
  assert (Hwb : (0 < WHEEL_BASE default_config)%R) by (simpl; lra).
  assert (Hs : (MIN_STEERING_ANGLE default_config <= 0
                <= MAX_STEERING_ANGLE default_config)%R) by lra.
  split; [split; [exact Hwb | exact Hs]|].
  apply (steering_follows_angular_velocity default_config 1 0 0 Hwb Hs).
Defined.

(** ** The location the offset is read at *)

Lemma candidates_last (cfg : Config) (ds : teach_dataset_t) (prev : Z) :
  0 <= FRAME_SEARCH_WINDOW cfg -> 0 <= prev < shape0 ds ->
  last (candidates cfg ds prev) 0 = end_idx cfg ds prev - 1.
Proof.
  intros HW Hprev. rewrite candidates_seq by assumption.
  assert (Hs : 0 <= start_idx cfg prev <= prev) by (unfold start_idx; lia).
  assert (He : prev < end_idx cfg ds prev) by (unfold end_idx; lia).
  replace (Z.to_nat (end_idx cfg ds prev - start_idx cfg prev))
    with (S (Z.to_nat (end_idx cfg ds prev - start_idx cfg prev - 1))) by lia.
  rewrite seq_S, map_app. simpl map. rewrite last_last. lia.
Qed.

(** X7: From a cursor on the path, the patch centre and the offsets that
    [ImageMatching] returns are computed from the correlation maximum of the
    highest id of the window, [min(N, prev + w + 1) - 1], whichever candidate
    wins; they are those of the winner when the winner is that id. *)
Theorem offset_location_is_last_scanned (score : Type)
  (score_lt : score -> score -> bool) (cfg : Config) (ds : teach_dataset_t)
  (fr : LiveFrame score) (prev : Z) :
  0 <= FRAME_SEARCH_WINDOW cfg -> 0 <= prev < shape0 ds ->
  let last_id := end_idx cfg ds prev - 1 in
  exists m,
    ImageMatching score_lt cfg ds fr prev = Some m /\
    patch_center_location m =
      patch_center (patch_shape fr) (max_loc_of fr last_id) /\
    offsets m = offsets_of cfg (patch_shape fr) (max_loc_of fr last_id) /\
    best_max_location (scan score_lt cfg ds fr prev) =
      Some (max_loc_of fr (matched_id m)) /\
    (matched_id m = last_id ->
     offsets m = offsets_of cfg (patch_shape fr) (max_loc_of fr (matched_id m))).
Proof.
  intros HW Hprev last_id.
  destruct (ImageMatching_result score score_lt cfg ds fr prev HW Hprev)
    as [pre [w [post [E [Hm [Hc [Hb _]]]]]]].
  rewrite (candidates_last cfg ds prev HW Hprev) in Hm. fold last_id in Hm.
  eexists. split; [exact Hm|]. cbn [patch_center_location offsets matched_id].
  repeat apply conj; try reflexivity.
  - exact Hb.
  - intros ->. reflexivity.
Qed.

Lemma offset_location_is_last_scanned_witness :
  (0 <= FRAME_SEARCH_WINDOW default_config /\ 0 <= 0 < shape0 straight_path5) /\
  exists m,
    ImageMatching Z.ltb default_config straight_path5 frame_best_at_0 0 = Some m /\
    patch_center_location m =
      patch_center (patch_shape frame_best_at_0)
        (max_loc_of frame_best_at_0 (end_idx default_config straight_path5 0 - 1)) /\
    offsets m =
      offsets_of default_config (patch_shape frame_best_at_0)
        (max_loc_of frame_best_at_0 (end_idx default_config straight_path5 0 - 1)) /\
    best_max_location (scan Z.ltb default_config straight_path5 frame_best_at_0 0) =
      Some (max_loc_of frame_best_at_0 (matched_id m)) /\
    (matched_id m = end_idx default_config straight_path5 0 - 1 ->
     offsets m =
       offsets_of default_config (patch_shape frame_best_at_0)
         (max_loc_of frame_best_at_0 (matched_id m))).
Proof.
  assert (H : 0 <= FRAME_SEARCH_WINDOW default_config /\
              0 <= 0 < shape0 straight_path5)
    by (unfold shape0; simpl; lia).
  split; [exact H|].
  apply (offset_location_is_last_scanned Z Z.ltb default_config straight_path5
           frame_best_at_0 0); apply H.
Defined.

(** ** How far the cursor moves *)

(** X8: Over a run of processed frames the cursor moves by at most the search
    half-width per frame, in either direction; with half-width 0 it never
    leaves its start. *)
Theorem cursor_moves_at_most_window (score : Type)
  (score_lt : score -> score -> bool) (cfg : Config) (ds : teach_dataset_t)
  (frames : list (LiveFrame score)) (prev : Z) :
  0 <= FRAME_SEARCH_WINDOW cfg -> 0 <= prev < shape0 ds ->
  exists c,
    run_matching score_lt cfg ds frames prev = Some c /\
    prev - FRAME_SEARCH_WINDOW cfg * Z.of_nat (length frames) <= c
      <= prev + FRAME_SEARCH_WINDOW cfg * Z.of_nat (length frames) /\
    (FRAME_SEARCH_WINDOW cfg = 0 -> c = prev).
Proof.
  intros HW. revert prev.
  assert (Hmain : forall prev, 0 <= prev < shape0 ds ->
            exists c,
              run_matching score_lt cfg ds frames prev = Some c /\
              prev - FRAME_SEARCH_WINDOW cfg * Z.of_nat (length frames) <= c
                <= prev + FRAME_SEARCH_WINDOW cfg * Z.of_nat (length frames)).
  { induction frames as [|fr rest IH]; intros prev Hprev.
    - exists prev. simpl. split; [reflexivity | lia].
    - destruct (ImageMatching_in_window score score_lt cfg ds fr prev HW Hprev)
        as [m [Hm [_ Hr]]].
      unfold start_idx, end_idx in Hr.
      destruct (IH (matched_id m) ltac:(lia)) as [c [Hc Hb]].
      exists c. cbn [run_matching]. rewrite Hm. split; [exact Hc|].
      cbn [length]. nia. }
  intros prev Hprev. destruct (Hmain prev Hprev) as [c [Hc Hb]].
  exists c. repeat apply conj; try assumption; lia.
Qed.

Lemma cursor_moves_at_most_window_witness :
  (0 <= FRAME_SEARCH_WINDOW default_config /\ 0 <= 0 < shape0 straight_path5) /\
  exists c,
    run_matching Z.ltb default_config straight_path5
      [frame_best_at_0; frame_tie_1_2] 0 = Some c /\
    0 - FRAME_SEARCH_WINDOW default_config
        * Z.of_nat (length [frame_best_at_0; frame_tie_1_2]) <= c
      <= 0 + FRAME_SEARCH_WINDOW default_config
             * Z.of_nat (length [frame_best_at_0; frame_tie_1_2]) /\
    (FRAME_SEARCH_WINDOW default_config = 0 -> c = 0).
Proof.
  assert (H : 0 <= FRAME_SEARCH_WINDOW default_config /\
              0 <= 0 < shape0 straight_path5)
    by (unfold shape0; simpl; lia).
  split; [exact H|].
  apply (cursor_moves_at_most_window Z Z.ltb default_config straight_path5
           [frame_best_at_0; frame_tie_1_2] 0); apply H.
Defined.

(** ** The offset as a function of the location *)

(** X9: The lateral offset falls by [scale_y] for each pixel the match location
    moves to the right, and does not depend on the row of the location; the
    other two components stay as they are. *)
Theorem lateral_offset_is_linear (cfg : Config) (patch_size : Z * Z)
  (x y d y' : Z) :
  offsets_of cfg patch_size (x + d, y') =
  (fst (fst (offsets_of cfg patch_size (x, y))),
   (snd (fst (offsets_of cfg patch_size (x, y)))
    - Y_OFFSET_SCALE_FACTOR cfg * IZR d)%R,
   snd (offsets_of cfg patch_size (x, y))).
Proof.
  unfold offsets_of, patch_center. cbn [fst snd].
  rewrite plus_IZR. f_equal. f_equal. ring.
Qed.

(** ** A path of one frame *)

(** X10: On a teach path of a single frame every processed frame is matched to
    id 0, which is the last id, so the command published has speed 0 and the
    steering angle of the command before: the car never starts. *)
Theorem single_frame_path_never_moves (score : Type)
  (score_lt : score -> score -> bool) (cfg : Config) (ds : teach_dataset_t)
  (fr : LiveFrame score) (cmd : AckermannDrive) :
  shape0 ds = 1 -> 0 <= FRAME_SEARCH_WINDOW cfg ->
  process_frame score_lt cfg ds fr (initial_cursor, cmd) =
  Some (0, set_speed 0 cmd).
Proof.
  intros HN HW. unfold process_frame, initial_cursor. cbn [fst snd].
  destruct (ImageMatching_in_window score score_lt cfg ds fr 0 HW
              ltac:(lia)) as [m [Hm [_ Hr]]].
  unfold start_idx, end_idx in Hr. rewrite Hm.
  assert (E : matched_id m = 0) by lia. rewrite E.
  rewrite Controller_stop; [reflexivity|].
  apply RelativeTF_none_iff.
  - assert (HL := lookahead_at_least_1 cfg). lia.
  - apply py_slice_past_end; unfold shape0 in HN.
    + lia.
    + assert (HL := lookahead_at_least_1 cfg). lia.
Qed.

Lemma single_frame_path_never_moves_witness :
  (shape0 [mkRow 0 0 0 0 0 0]%R = 1 /\ 0 <= FRAME_SEARCH_WINDOW default_config) /\
  process_frame Z.ltb default_config [mkRow 0 0 0 0 0 0]%R frame_best_at_0
    (initial_cursor, init_cmd (5 / 10)%R) =
  Some (0, set_speed 0 (init_cmd (5 / 10)%R)).
Proof.
  assert (H : shape0 [mkRow 0 0 0 0 0 0]%R = 1 /\
              0 <= FRAME_SEARCH_WINDOW default_config)
    by (unfold shape0; simpl; lia).
  split; [exact H|].
  apply (single_frame_path_never_moves Z Z.ltb default_config
           [mkRow 0 0 0 0 0 0]%R frame_best_at_0 (init_cmd (5 / 10)%R));
    apply H.
Defined.

(** ** The callbacks *)

Section NodeFacts.

Variable score : Type.
Variable score_lt : score -> score -> bool.
Variable prm : NodeParams.
Variable cfg : Config.
Variable ds : teach_dataset_t.

Local Abbreviation callback := (RepeatNode.Image_Callback score_lt prm cfg ds).

(** One call of [Image_Callback]: either it ends [Processed], has matched
    from the cursor and published the command of the controller, or it ends
    otherwise and has touched neither cursor, frame id, command nor the
    published messages. *)
Lemma Image_Callback_step (self : RepeatNode.state)
  (data : RepeatNode.ImageMsg score) :
  let self' := fst (callback self data) in
  let o := snd (callback self data) in
  RepeatNode.odom_topic_recieved self' = RepeatNode.odom_topic_recieved self /\
  ((o = Processed /\
    RepeatNode.odom_topic_recieved self = true /\
    exists m,
      ImageMatching score_lt cfg ds (RepeatNode.live_frame data)
        (RepeatNode.current_matched_teach_frame_id self) = Some m /\
      RepeatNode.current_matched_teach_frame_id self' = matched_id m /\
      RepeatNode.ackermann_cmd self' =
        Controller cfg ds (RepeatNode.ackermann_cmd self) (matched_id m)
                   (offsets m) /\
      RepeatNode.published self' =
        RepeatNode.published self ++ [RepeatNode.ackermann_cmd self'] /\
      RepeatNode.frame_id self' = RepeatNode.frame_id self + 1 /\
      RepeatNode.previous_odom self' = RepeatNode.current_odom self' /\
      RepeatNode.first_frame_odom self' =
        (if RepeatNode.frame_id self =? 0 then RepeatNode.current_odom self
         else RepeatNode.first_frame_odom self)) \/
   (o <> Processed /\
    (o = MatchingRaised ->
     ImageMatching score_lt cfg ds (RepeatNode.live_frame data)
       (RepeatNode.current_matched_teach_frame_id self) = None) /\
    RepeatNode.current_matched_teach_frame_id self' =
      RepeatNode.current_matched_teach_frame_id self /\
    RepeatNode.ackermann_cmd self' = RepeatNode.ackermann_cmd self /\
    RepeatNode.published self' = RepeatNode.published self /\
    RepeatNode.frame_id self' = RepeatNode.frame_id self /\
    (1 <= RepeatNode.frame_id self ->
     RepeatNode.first_frame_odom self' = RepeatNode.first_frame_odom self))).
Proof.
  cbv zeta. unfold RepeatNode.Image_Callback.
  destruct (RepeatNode.odom_topic_recieved self) eqn:Hodom; cbn [negb].
  2:{ cbn [fst snd]. split; [first [exact Hodom | reflexivity]|]. right.
      repeat apply conj; try reflexivity; discriminate. }
  destruct (PROCESS_EVERY_NTH_FRAME prm =? 0).
  { cbn [fst snd]. split; [first [exact Hodom | reflexivity]|]. right.
    repeat apply conj; try reflexivity; discriminate. }
  destruct (negb (RepeatNode.frame_counter
                    (RepeatNode.count_frame (PROCESS_EVERY_NTH_FRAME prm) self)
                  =? 0)).
  { cbn [fst snd]. split; [first [exact Hodom | reflexivity]|]. right.
    repeat apply conj; try reflexivity; discriminate. }
  set (self1 := RepeatNode.count_frame (PROCESS_EVERY_NTH_FRAME prm) self).
  assert (H2 : let self2 := RepeatNode.set_first_odom self1 in
               RepeatNode.odom_topic_recieved self2 = true /\
               RepeatNode.current_matched_teach_frame_id self2 =
                 RepeatNode.current_matched_teach_frame_id self /\
               RepeatNode.ackermann_cmd self2 = RepeatNode.ackermann_cmd self /\
               RepeatNode.published self2 = RepeatNode.published self /\
               RepeatNode.frame_id self2 = RepeatNode.frame_id self /\
               RepeatNode.current_odom self2 = RepeatNode.current_odom self /\
               RepeatNode.first_frame_odom self2 =
                 (if RepeatNode.frame_id self =? 0
                  then RepeatNode.current_odom self
                  else RepeatNode.first_frame_odom self)).
  { cbv zeta. unfold RepeatNode.set_first_odom. subst self1.
    cbn [RepeatNode.count_frame RepeatNode.frame_id].
    destruct (RepeatNode.frame_id self =? 0); cbn; repeat apply conj;
      try reflexivity; exact Hodom. }
  cbv zeta in H2.
  set (self2 := RepeatNode.set_first_odom self1) in *.
  destruct H2 as [Ho [Hc [Hcmd [Hp [Hf [Hcur Hfirst]]]]]].
  assert (Hkeep : 1 <= RepeatNode.frame_id self ->
                  RepeatNode.first_frame_odom self2 =
                  RepeatNode.first_frame_odom self).
  { intros Hge. rewrite Hfirst.
    destruct (Z.eqb_spec (RepeatNode.frame_id self) 0); [lia|reflexivity]. }
  destruct (negb (RepeatNode.decodes data)).
  { cbn [fst snd]. split; [exact Ho|]. right.
    repeat apply conj; try assumption; discriminate. }
  destruct (SAVE_REPEAT_DATA prm && (RepeatNode.save_retval data =? -1)).
  { cbn [fst snd]. split; [exact Ho|]. right.
    repeat apply conj; try assumption; discriminate. }
  rewrite Hc.
  destruct (ImageMatching score_lt cfg ds (RepeatNode.live_frame data)
              (RepeatNode.current_matched_teach_frame_id self))
    as [[id center offs]|] eqn:Hm.
  - cbn [fst snd]. split; [exact Ho|]. left.
    split; [reflexivity|]. split; [reflexivity|].
    exists (mkMatched id center offs). cbn.
    rewrite Hcmd, Hp, Hf, Hfirst. repeat apply conj; reflexivity.
  - cbn [fst snd]. split; [exact Ho|]. right.
    repeat apply conj; try assumption; try reflexivity; discriminate.
Qed.

End NodeFacts.

Lemma last_cons_default {A : Type} (l : list A) (x d : A) :
  last (x :: l) d = last l x.
Proof.
  revert x d; induction l as [|a l IH]; intros x d; [reflexivity|].
  change (last (a :: l) d = last (a :: l) x). now rewrite !IH.
Qed.

Section RunFacts.

Variable score : Type.
Variable score_lt : score -> score -> bool.
Variable prm : NodeParams.
Variable cfg : Config.
Variable ds : teach_dataset_t.

Local Abbreviation run := (RepeatNode.run score_lt prm cfg ds).
Local Abbreviation handle := (RepeatNode.handle score_lt prm cfg ds).
Local Abbreviation callback := (RepeatNode.Image_Callback score_lt prm cfg ds).

Lemma run_nil (self : RepeatNode.state) : run self [] = (self, []).
Proof. reflexivity. Qed.

Lemma run_cons (self : RepeatNode.state) (ev : RepeatNode.Event score)
  (rest : list (RepeatNode.Event score)) :
  fst (run self (ev :: rest)) = fst (run (fst (handle self ev)) rest) /\
  snd (run self (ev :: rest)) =
    snd (handle self ev) ++ snd (run (fst (handle self ev)) rest).
Proof.
  cbn [RepeatNode.run].
  destruct (RepeatNode.handle score_lt prm cfg ds self ev) as [s1 o1].
  cbn [fst snd].
  destruct (RepeatNode.run score_lt prm cfg ds s1 rest) as [s2 o2].
  split; reflexivity.
Qed.

Lemma handle_image (self : RepeatNode.state) (data : RepeatNode.ImageMsg score) :
  handle self (RepeatNode.ImageEvent data) =
  (fst (callback self data), [snd (callback self data)]).
Proof.
  cbn [RepeatNode.handle].
  destruct (RepeatNode.Image_Callback score_lt prm cfg ds self data).
  reflexivity.
Qed.

(** An invariant of the state that both callbacks keep holds after a run. *)
Lemma run_invariant (P : RepeatNode.state -> Prop) :
  (forall self pose, P self -> P (RepeatNode.Odom_Callback self pose)) ->
  (forall self data, P self -> P (fst (callback self data))) ->
  forall events self, P self -> P (fst (run self events)).
Proof.
  intros Hodom Himg events.
  induction events as [|ev rest IH]; intros self HP.
  - exact HP.
  - rewrite (proj1 (run_cons self ev rest)). apply IH.
    destruct ev as [pose|data].
    + apply Hodom, HP.
    + rewrite handle_image. apply Himg, HP.
Qed.

(** What a run adds to the published commands. *)
Lemma run_published (events : list (RepeatNode.Event score))
  (self : RepeatNode.state) :
  exists new,
    RepeatNode.published (fst (run self events)) =
      RepeatNode.published self ++ new /\
    length new = length (filter is_processed (snd (run self events))) /\
    RepeatNode.frame_id (fst (run self events)) =
      RepeatNode.frame_id self + Z.of_nat (length new) /\
    RepeatNode.ackermann_cmd (fst (run self events)) =
      last new (RepeatNode.ackermann_cmd self).
Proof.
  revert self. induction events as [|ev rest IH]; intros self.
  - exists []. rewrite run_nil. cbn. rewrite app_nil_r.
    repeat apply conj; try reflexivity. lia.
  - destruct (run_cons self ev rest) as [-> ->].
    destruct ev as [pose|data].
    + destruct (IH (RepeatNode.Odom_Callback self pose)) as [new H].
      exists new. exact H.
    + rewrite handle_image. cbn [fst snd app].
      destruct (IH (fst (callback self data))) as [new [Hp [Hl [Hf Hc]]]].
      destruct (Image_Callback_step score score_lt prm cfg ds self data)
        as [_ [[Ho [_ [m [_ [_ [_ [Hpub [Hfid _]]]]]]]]|[Ho [_ [_ [Hcmd [Hpub [Hfid _]]]]]]]].
      * exists (RepeatNode.ackermann_cmd (fst (callback self data)) :: new).
        rewrite Hp, Hpub, <- app_assoc, Ho. cbn [filter is_processed length app].
        repeat apply conj; try reflexivity.
        -- now rewrite Hl.
        -- rewrite Hf, Hfid. lia.
        -- rewrite Hc. symmetry. apply last_cons_default.
      * exists new. rewrite Hp, Hpub.
        assert (Hnp : is_processed (snd (callback self data)) = false)
          by (destruct (snd (callback self data)); try reflexivity;
              now contradiction Ho).
        cbn [filter]. rewrite Hnp.
        repeat apply conj; try reflexivity; try assumption.
        -- now rewrite Hf, Hfid.
        -- now rewrite Hc, Hcmd.
Qed.

End RunFacts.

(** ** Commands and processed frames *)

(** X11: From start-up, whatever messages arrive: the node has published one
    command per image callback that ended [Processed] and none for any
    other; [frame_id] counts them; and [self.ackermann_cmd] is the command
    published last (the initial message if there is none). *)
Theorem one_command_per_processed_frame (score : Type)
  (score_lt : score -> score -> bool) (prm : NodeParams) (cfg : Config)
  (ds : teach_dataset_t) (acc : R) (events : list (RepeatNode.Event score)) :
  let r := RepeatNode.run score_lt prm cfg ds (RepeatNode.init acc) events in
  length (RepeatNode.published (fst r)) =
    length (filter is_processed (snd r)) /\
  RepeatNode.frame_id (fst r) =
    Z.of_nat (length (RepeatNode.published (fst r))) /\
  RepeatNode.ackermann_cmd (fst r) =
    last (RepeatNode.published (fst r)) (init_cmd acc).
Proof.
  cbv zeta.
  destruct (run_published score score_lt prm cfg ds events (RepeatNode.init acc))
    as [new [Hp [Hl [Hf Hc]]]].
  cbn [RepeatNode.init RepeatNode.published RepeatNode.frame_id
       RepeatNode.ackermann_cmd app] in Hp, Hf, Hc.
  rewrite Hp, Hf, Hc. repeat apply conj; try reflexivity; assumption.
Qed.

Lemma Controller_keeps_fields (cfg : Config) (ds : teach_dataset_t)
  (cmd : AckermannDrive) (id : Z) (offs : R * R * R) :
  steering_angle_velocity (Controller cfg ds cmd id offs) =
    steering_angle_velocity cmd /\
  acceleration (Controller cfg ds cmd id offs) = acceleration cmd /\
  jerk (Controller cfg ds cmd id offs) = jerk cmd.
Proof.
  unfold Controller.
  destruct (RelativeTFBetweenFrames ds id (id + TARGET_FRAME_LOOKAHEAD cfg));
    repeat apply conj; reflexivity.
Qed.

(** X12: Every command the node publishes carries the acceleration read at
    start-up, jerk 0 and steering angle velocity 0: the callbacks write the
    speed and the steering angle only. *)
Theorem published_commands_keep_constants (score : Type)
  (score_lt : score -> score -> bool) (prm : NodeParams) (cfg : Config)
  (ds : teach_dataset_t) (acc : R) (events : list (RepeatNode.Event score)) :
  Forall (fun cmd => acceleration cmd = acc /\ jerk cmd = 0%R /\
                     steering_angle_velocity cmd = 0%R)
    (RepeatNode.published
       (fst (RepeatNode.run score_lt prm cfg ds (RepeatNode.init acc) events))).
Proof.
  set (ok := fun cmd => acceleration cmd = acc /\ jerk cmd = 0%R /\
                        steering_angle_velocity cmd = 0%R).
  assert (H : (fun self => ok (RepeatNode.ackermann_cmd self) /\
                           Forall ok (RepeatNode.published self))
                (fst (RepeatNode.run score_lt prm cfg ds
                        (RepeatNode.init acc) events))).
  { apply run_invariant.
    - intros self pose HP. exact HP.
    - intros self data [Hcmd Hpub].
      destruct (Image_Callback_step score score_lt prm cfg ds self data)
        as [_ [[_ [_ [m [_ [_ [Hc [Hp _]]]]]]]|[_ [_ [_ [Hc [Hp _]]]]]]].
      + assert (Hok : ok (RepeatNode.ackermann_cmd
                            (fst (RepeatNode.Image_Callback score_lt prm cfg ds
                                    self data)))).
        { rewrite Hc.
          destruct (Controller_keeps_fields cfg ds
                      (RepeatNode.ackermann_cmd self) (matched_id m) (offsets m))
            as [Hv [Ha Hj]].
          destruct Hcmd as [Ha0 [Hj0 Hv0]]. unfold ok.
          rewrite Ha, Hj, Hv. now repeat split. }
        split; [exact Hok|]. rewrite Hp. apply Forall_app.
        split; [exact Hpub | now constructor].
      + rewrite Hc, Hp. now split.
    - split; [|constructor]. unfold ok. cbn. now repeat split. }
  apply H.
Qed.

(** ** The cursor in the running node *)

(** X13: On a path of at least one frame and with a half-width that is not
    negative, whatever messages arrive the cursor of the node stays a valid
    index of the path, and no image callback ends in the NameError of
    [ImageMatching]. *)
Theorem node_cursor_stays_on_path (score : Type)
  (score_lt : score -> score -> bool) (prm : NodeParams) (cfg : Config)
  (ds : teach_dataset_t) (acc : R) (events : list (RepeatNode.Event score)) :
  1 <= shape0 ds -> 0 <= FRAME_SEARCH_WINDOW cfg ->
  let r := RepeatNode.run score_lt prm cfg ds (RepeatNode.init acc) events in
  0 <= RepeatNode.current_matched_teach_frame_id (fst r) < shape0 ds /\
  ~ In MatchingRaised (snd r).
Proof.
  intros HN HW. cbv zeta.
  assert (Hgen : forall self,
            0 <= RepeatNode.current_matched_teach_frame_id self < shape0 ds ->
            0 <= RepeatNode.current_matched_teach_frame_id
                   (fst (RepeatNode.run score_lt prm cfg ds self events))
              < shape0 ds /\
            ~ In MatchingRaised
                (snd (RepeatNode.run score_lt prm cfg ds self events))).
  { induction events as [|ev rest IH]; intros self Hc.
    - split; [exact Hc | intros []].
    - destruct (run_cons score score_lt prm cfg ds self ev rest) as [-> ->].
      destruct ev as [pose|data].
      + apply IH. exact Hc.
      + rewrite handle_image. cbn [fst snd app].
        destruct (ImageMatching_in_window score score_lt cfg ds
                    (RepeatNode.live_frame data)
                    (RepeatNode.current_matched_teach_frame_id self) HW Hc)
          as [m' [Hm' [_ Hr]]].
        unfold start_idx, end_idx in Hr.
        destruct (Image_Callback_step score score_lt prm cfg ds self data)
          as [_ [[Ho [_ [m [Hm [Hcur _]]]]]|[Ho [Hraise [Hcur _]]]]].
        * rewrite Hm' in Hm. injection Hm as <-.
          destruct (IH (fst (RepeatNode.Image_Callback score_lt prm cfg ds
                               self data)) ltac:(rewrite Hcur; lia))
            as [Hin Hnot].
          split; [exact Hin|]. rewrite Ho. intros [E|E]; [discriminate|].
          now apply Hnot.
        * destruct (IH (fst (RepeatNode.Image_Callback score_lt prm cfg ds
                               self data)) ltac:(rewrite Hcur; exact Hc))
            as [Hin Hnot].
          split; [exact Hin|]. intros [E|E]; [|now apply Hnot].
          apply Hraise in E. rewrite Hm' in E. discriminate. }
  apply Hgen. cbn. lia.
Qed.

Lemma node_cursor_stays_on_path_witness :
  (1 <= shape0 straight_path5 /\ 0 <= FRAME_SEARCH_WINDOW default_config) /\
  ~ In MatchingRaised
      (snd (RepeatNode.run Z.ltb (mkParams 1 false) default_config straight_path5
              (RepeatNode.init (5 / 10)%R)
              [RepeatNode.OdomMsg Pose0;
               RepeatNode.ImageEvent
                 (RepeatNode.mkImageMsg true frame_best_at_0 0)])).
Proof.
  assert (H : 1 <= shape0 straight_path5 /\
              0 <= FRAME_SEARCH_WINDOW default_config)
    by (unfold shape0; simpl; lia).
  split; [exact H|].
  apply (node_cursor_stays_on_path Z Z.ltb (mkParams 1 false) default_config
           straight_path5 (5 / 10)%R
           [RepeatNode.OdomMsg Pose0;
            RepeatNode.ImageEvent
              (RepeatNode.mkImageMsg true frame_best_at_0 0)]);
    apply H.
Defined.

(** ** Frame decimation *)

Section Decimation.

Variable score : Type.
Variable score_lt : score -> score -> bool.
Variable prm : NodeParams.
Variable cfg : Config.
Variable ds : teach_dataset_t.

Local Abbreviation run := (RepeatNode.run score_lt prm cfg ds).
Local Abbreviation callback := (RepeatNode.Image_Callback score_lt prm cfg ds).

Lemma set_first_odom_counter (self : RepeatNode.state) :
  RepeatNode.frame_counter (RepeatNode.set_first_odom self) =
  RepeatNode.frame_counter self.
Proof.
  unfold RepeatNode.set_first_odom.
  destruct (RepeatNode.frame_id self =? 0); reflexivity.
Qed.

(** Once odometry has arrived, a call counts the image and ends [Decimated]
    exactly when the new count is not 0. *)
Lemma Image_Callback_counter (self : RepeatNode.state)
  (data : RepeatNode.ImageMsg score) :
  RepeatNode.odom_topic_recieved self = true ->
  PROCESS_EVERY_NTH_FRAME prm <> 0 ->
  let c' := (RepeatNode.frame_counter self + 1) mod PROCESS_EVERY_NTH_FRAME prm in
  RepeatNode.frame_counter (fst (callback self data)) = c' /\
  is_decimated (snd (callback self data)) = negb (c' =? 0).
Proof.
  intros Hodom Hn. cbv zeta. unfold RepeatNode.Image_Callback.
  rewrite Hodom. cbn [negb].
  destruct (Z.eqb_spec (PROCESS_EVERY_NTH_FRAME prm) 0) as [E|_];
    [contradiction|].
  cbn [RepeatNode.count_frame RepeatNode.frame_counter].
  destruct ((RepeatNode.frame_counter self + 1) mod PROCESS_EVERY_NTH_FRAME prm
            =? 0) eqn:Hc; cbn [negb].
  2:{ cbn. split; reflexivity. }
  destruct (negb (RepeatNode.decodes data)).
  { cbn [fst snd]. rewrite set_first_odom_counter. cbn. split; reflexivity. }
  destruct (SAVE_REPEAT_DATA prm && (RepeatNode.save_retval data =? -1)).
  { cbn [fst snd]. rewrite set_first_odom_counter. cbn. split; reflexivity. }
  destruct (ImageMatching _ _ _ _ _) as [[id center offs]|].
  - cbn [fst snd RepeatNode.frame_counter]. rewrite set_first_odom_counter.
    cbn. split; reflexivity.
  - cbn [fst snd]. rewrite set_first_odom_counter. cbn. split; reflexivity.
Qed.

Lemma run_images_decimation (msgs : list (RepeatNode.ImageMsg score))
  (self : RepeatNode.state) :
  RepeatNode.odom_topic_recieved self = true ->
  PROCESS_EVERY_NTH_FRAME prm <> 0 ->
  let r := run self (map RepeatNode.ImageEvent msgs) in
  map is_decimated (snd r) =
    map (fun i => negb ((RepeatNode.frame_counter self + Z.of_nat i)
                        mod PROCESS_EVERY_NTH_FRAME prm =? 0))
        (seq 1 (length msgs)) /\
  RepeatNode.frame_counter (fst r) =
    (RepeatNode.frame_counter self + Z.of_nat (length msgs))
    mod PROCESS_EVERY_NTH_FRAME prm \/
  msgs = [].
Proof.
  intros Hodom Hn. cbv zeta. revert self Hodom.
  induction msgs as [|data rest IH]; intros self Hodom; [now right|].
  left. cbn [map].
  destruct (run_cons score score_lt prm cfg ds self
              (RepeatNode.ImageEvent data) (map RepeatNode.ImageEvent rest))
    as [-> ->].
  rewrite handle_image. cbn [fst snd app map length seq].
  destruct (Image_Callback_counter self data Hodom Hn) as [Hc Hd].
  assert (Hodom' : RepeatNode.odom_topic_recieved (fst (callback self data))
                   = true).
  { rewrite <- Hodom.
    apply (Image_Callback_step score score_lt prm cfg ds self data). }
  assert (Hshift : forall i,
            ((RepeatNode.frame_counter self + 1) mod PROCESS_EVERY_NTH_FRAME prm
             + Z.of_nat i) mod PROCESS_EVERY_NTH_FRAME prm =
            (RepeatNode.frame_counter self + Z.of_nat (S i))
            mod PROCESS_EVERY_NTH_FRAME prm).
  { intros i. rewrite Zplus_mod_idemp_l. f_equal. lia. }
  destruct (IH (fst (callback self data)) Hodom') as [[Hmap Hfc] | ->].
  - split.
    + rewrite Hd, Hmap, Hc. change (Z.of_nat 1) with 1. f_equal.
      rewrite <- (seq_shift (length rest) 1), map_map. apply map_ext. intros i.
      now rewrite Hshift.
    + rewrite Hfc, Hc, Hshift. reflexivity.
  - cbn [map length seq RepeatNode.run fst snd]. rewrite Hd, Hc.
    change (Z.of_nat 1) with 1. split; reflexivity.
Qed.

End Decimation.

(** X14: After the first odometry message, with [process_every_nth_frame = n]
    other than 0, the i-th image (counted from 1) passes the decimation gate
    exactly when [n] divides [i]; and after the images the frame counter is
    their number modulo [n]. *)
Theorem every_nth_frame_passes (score : Type)
  (score_lt : score -> score -> bool) (prm : NodeParams) (cfg : Config)
  (ds : teach_dataset_t) (acc : R) (pose : Pose)
  (msgs : list (RepeatNode.ImageMsg score)) :
  PROCESS_EVERY_NTH_FRAME prm <> 0 ->
  let r := RepeatNode.run score_lt prm cfg ds (RepeatNode.init acc)
             (RepeatNode.OdomMsg pose :: map RepeatNode.ImageEvent msgs) in
  map is_decimated (snd r) =
    map (fun i => negb (Z.of_nat i mod PROCESS_EVERY_NTH_FRAME prm =? 0))
        (seq 1 (length msgs)) /\
  RepeatNode.frame_counter (fst r) =
    Z.of_nat (length msgs) mod PROCESS_EVERY_NTH_FRAME prm.
Proof.
  intros Hn. cbv zeta.
  destruct (run_cons score score_lt prm cfg ds (RepeatNode.init acc)
              (RepeatNode.OdomMsg pose) (map RepeatNode.ImageEvent msgs))
    as [-> ->].
  cbn [RepeatNode.handle fst snd app].
  destruct (run_images_decimation score score_lt prm cfg ds msgs
              (RepeatNode.Odom_Callback (RepeatNode.init acc) pose)
              eq_refl Hn) as [[Hmap Hfc] | ->].
  - cbn [RepeatNode.Odom_Callback RepeatNode.init RepeatNode.frame_counter]
      in Hmap, Hfc.
    split; [exact Hmap | exact Hfc].
  - split; [reflexivity|]. cbn [length Z.of_nat]. now rewrite Zmod_0_l.
Qed.

Lemma every_nth_frame_passes_witness :
  PROCESS_EVERY_NTH_FRAME (mkParams 2 false) <> 0 /\
  map is_decimated
    (snd (RepeatNode.run Z.ltb (mkParams 2 false) default_config straight_path5
            (RepeatNode.init (5 / 10)%R)
            (RepeatNode.OdomMsg Pose0 ::
             map RepeatNode.ImageEvent
               [RepeatNode.mkImageMsg true frame_best_at_0 0;
                RepeatNode.mkImageMsg true frame_best_at_0 0;
                RepeatNode.mkImageMsg true frame_tie_1_2 0]))) =
  map (fun i => negb (Z.of_nat i mod PROCESS_EVERY_NTH_FRAME (mkParams 2 false)
                      =? 0))
      (seq 1 3).
Proof.
  assert (Hn : PROCESS_EVERY_NTH_FRAME (mkParams 2 false) <> 0)
    by (simpl; lia).
  split; [exact Hn|].
  apply (every_nth_frame_passes Z Z.ltb (mkParams 2 false) default_config
           straight_path5 (5 / 10)%R Pose0
           [RepeatNode.mkImageMsg true frame_best_at_0 0;
            RepeatNode.mkImageMsg true frame_best_at_0 0;
            RepeatNode.mkImageMsg true frame_tie_1_2 0] Hn).
Defined.

(** ** Images that are never processed *)

(** X15: Images that arrive before the first odometry message are dropped: each
    callback ends waiting and the node is left exactly as [__init__] set it
    up, frame counter included. *)
Theorem images_before_odometry_are_dropped (score : Type)
  (score_lt : score -> score -> bool) (prm : NodeParams) (cfg : Config)
  (ds : teach_dataset_t) (acc : R) (msgs : list (RepeatNode.ImageMsg score)) :
  RepeatNode.run score_lt prm cfg ds (RepeatNode.init acc)
    (map RepeatNode.ImageEvent msgs) =
  (RepeatNode.init acc, map (fun _ => WaitingForOdom) msgs).
Proof.
  induction msgs as [|data rest IH]; [reflexivity|].
  cbn [map RepeatNode.run RepeatNode.handle].
  change (RepeatNode.Image_Callback score_lt prm cfg ds (RepeatNode.init acc)
            data) with (RepeatNode.init acc, WaitingForOdom).
  cbv iota beta. rewrite IH. reflexivity.
Qed.

(** X16: With [process_every_nth_frame = 0] the count of line 148 divides by
    zero in every image callback that gets there: whatever messages arrive,
    no frame is processed, nothing is published, and the cursor and the frame
    id stay 0. *)
Theorem zero_nth_frame_processes_nothing (score : Type)
  (score_lt : score -> score -> bool) (prm : NodeParams) (cfg : Config)
  (ds : teach_dataset_t) (acc : R) (events : list (RepeatNode.Event score)) :
  PROCESS_EVERY_NTH_FRAME prm = 0 ->
  let r := RepeatNode.run score_lt prm cfg ds (RepeatNode.init acc) events in
  Forall (fun o => o = WaitingForOdom \/ o = ZeroDivision) (snd r) /\
  RepeatNode.published (fst r) = [] /\
  RepeatNode.frame_id (fst r) = 0 /\
  RepeatNode.current_matched_teach_frame_id (fst r) = 0 /\
  RepeatNode.frame_counter (fst r) = 0.
Proof.
  intros Hn. cbv zeta.
  assert (Hstep : forall self data,
            RepeatNode.Image_Callback score_lt prm cfg ds self data =
            (self, if RepeatNode.odom_topic_recieved self then ZeroDivision
                   else WaitingForOdom)).
  { intros self data. unfold RepeatNode.Image_Callback. rewrite Hn.
    destruct (RepeatNode.odom_topic_recieved self); reflexivity. }
  assert (Hgen : forall self,
            let r := RepeatNode.run score_lt prm cfg ds self events in
            Forall (fun o => o = WaitingForOdom \/ o = ZeroDivision) (snd r) /\
            RepeatNode.published (fst r) = RepeatNode.published self /\
            RepeatNode.frame_id (fst r) = RepeatNode.frame_id self /\
            RepeatNode.current_matched_teach_frame_id (fst r) =
              RepeatNode.current_matched_teach_frame_id self /\
            RepeatNode.frame_counter (fst r) = RepeatNode.frame_counter self).
  { induction events as [|ev rest IH]; intros self; cbv zeta.
    - cbn. repeat apply conj; try reflexivity. constructor.
    - destruct (run_cons score score_lt prm cfg ds self ev rest) as [-> ->].
      destruct ev as [pose|data].
      + exact (IH (RepeatNode.Odom_Callback self pose)).
      + rewrite handle_image, Hstep. cbn [fst snd app].
        destruct (IH self) as [Ho Hrest]. split; [|exact Hrest].
        constructor; [|exact Ho].
        destruct (RepeatNode.odom_topic_recieved self); [now right | now left]. }
  exact (Hgen (RepeatNode.init acc)).
Qed.

Lemma zero_nth_frame_processes_nothing_witness :
  PROCESS_EVERY_NTH_FRAME (mkParams 0 false) = 0 /\
  RepeatNode.published
    (fst (RepeatNode.run Z.ltb (mkParams 0 false) default_config straight_path5
            (RepeatNode.init (5 / 10)%R)
            [RepeatNode.OdomMsg Pose0;
             RepeatNode.ImageEvent
               (RepeatNode.mkImageMsg true frame_best_at_0 0)])) = [].
Proof.
  split; [reflexivity|].
  apply (zero_nth_frame_processes_nothing Z Z.ltb (mkParams 0 false)
           default_config straight_path5 (5 / 10)%R
           [RepeatNode.OdomMsg Pose0;
            RepeatNode.ImageEvent
              (RepeatNode.mkImageMsg true frame_best_at_0 0)] eq_refl).
Defined.

(** ** The odometry of the first frame *)

(** X17: Once a frame has been processed ([frame_id >= 1]), no callback changes
    [first_frame_odom] again, and [frame_id] never returns to 0. *)
Theorem first_frame_odom_is_kept (score : Type)
  (score_lt : score -> score -> bool) (prm : NodeParams) (cfg : Config)
  (ds : teach_dataset_t) (self : RepeatNode.state)
  (events : list (RepeatNode.Event score)) :
  1 <= RepeatNode.frame_id self ->
  let self' := fst (RepeatNode.run score_lt prm cfg ds self events) in
  RepeatNode.first_frame_odom self' = RepeatNode.first_frame_odom self /\
  RepeatNode.frame_id self <= RepeatNode.frame_id self'.
Proof.
  intros Hid. cbv zeta.
  apply (run_invariant score score_lt prm cfg ds
           (fun s => RepeatNode.first_frame_odom s =
                     RepeatNode.first_frame_odom self /\
                     RepeatNode.frame_id self <= RepeatNode.frame_id s)).
  - intros s pose HP. exact HP.
  - intros s data [Hfirst Hge].
    destruct (Image_Callback_step score score_lt prm cfg ds s data)
      as [_ [[_ [_ [m [_ [_ [_ [_ [Hf [_ Hff]]]]]]]]]|[_ [_ [_ [_ [_ [Hf Hff]]]]]]]].
    + rewrite Hff, Hf.
      destruct (Z.eqb_spec (RepeatNode.frame_id s) 0) as [E|_]; [lia|].
      split; [exact Hfirst | lia].
    + rewrite Hf, (Hff ltac:(lia)). split; [exact Hfirst | exact Hge].
  - split; [reflexivity | lia].
Qed.

Lemma first_frame_odom_is_kept_witness :
  1 <= RepeatNode.frame_id
         (RepeatNode.mkState true 0 true 0 1 (Some Pose0) (Some Pose0)
            (Some Pose0) None (init_cmd (5 / 10)%R) []) /\
  RepeatNode.first_frame_odom
    (fst (RepeatNode.run Z.ltb (mkParams 1 false) default_config straight_path5
            (RepeatNode.mkState true 0 true 0 1 (Some Pose0) (Some Pose0)
               (Some Pose0) None (init_cmd (5 / 10)%R) [])
            [RepeatNode.OdomMsg (set_orientation_w 1 Pose0);
             RepeatNode.ImageEvent
               (RepeatNode.mkImageMsg true frame_best_at_0 0)])) =
  Some Pose0.
Proof.
  assert (H : 1 <= RepeatNode.frame_id
                     (RepeatNode.mkState true 0 true 0 1 (Some Pose0)
                        (Some Pose0) (Some Pose0) None
                        (init_cmd (5 / 10)%R) []))
    by (simpl; lia).
  split; [exact H|].
  apply (first_frame_odom_is_kept Z Z.ltb (mkParams 1 false) default_config
           straight_path5
           (RepeatNode.mkState true 0 true 0 1 (Some Pose0) (Some Pose0)
              (Some Pose0) None (init_cmd (5 / 10)%R) [])
           [RepeatNode.OdomMsg (set_orientation_w 1 Pose0);
            RepeatNode.ImageEvent
              (RepeatNode.mkImageMsg true frame_best_at_0 0)] H).
Defined.
